(** * Chessboard rice challenge: the quantity engine, the magnitude
    formatter and the data series of [app.py], embedded in Rocq.

    The Python program works on arbitrary-precision integers and on IEEE-754
    binary64 floats.  Integers are modelled by [Z]; floats by the
    specification-level floats of the Standard Library ([spec_float], with
    [prec = 53] and [emax = 1024]), so every rounding step of the program is
    computed exactly as the hardware does it.  Python exceptions are values of
    an error monad. *)

From Stdlib Require Import ZArith Lia List String Ascii Bool QArith Qpower.
From Stdlib Require Import SpecFloat DecimalString Reals Qreals Lra Sorted.
From Stdlib Require Import DecimalPos DecimalZ.
Import ListNotations.

Local Open Scope Z_scope.

(** ** The fragment of the Python runtime that the program uses *)

Module Py.

(** Exceptions that the modelled operations can raise. *)
Inductive exn : Type :=
| OverflowError
| ZeroDivisionError
| IndexError.

Inductive result (A : Type) : Type :=
| Ok (a : A)
| Raise (e : exn).
Arguments Ok {A} a.
Arguments Raise {A} e.

Definition bind {A B : Type} (c : result A) (k : A -> result B) : result B :=
  match c with
  | Ok a => k a
  | Raise e => Raise e
  end.

Fixpoint mapM {A B : Type} (f : A -> result B) (l : list A) : result (list B) :=
  match l with
  | [] => Ok []
  | a :: l' =>
      bind (f a) (fun b => bind (mapM f l') (fun bs => Ok (b :: bs)))
  end.

(** A Python number: an [int] of unbounded size or a binary64 [float]. *)
Inductive value : Type :=
| Int (z : Z)
| Float (f : spec_float).

Definition prec : Z := 53.
Definition emax : Z := 1024.

(** [float(z)]: round to nearest, ties to even; an [int] that rounds past
    the largest finite double raises [OverflowError]. *)
Definition float_of_int (z : Z) : result spec_float :=
  match binary_normalize prec emax z 0 false with
  | S754_infinity _ => Raise OverflowError
  | f => Ok f
  end.

Definition to_float (v : value) : result spec_float :=
  match v with
  | Int z => float_of_int z
  | Float f => Ok f
  end.

(** A decimal float literal [m]e[e10], for the literals of the program:
    the mantissa and the power of ten are exactly representable, so one
    correctly rounded operation gives the correctly rounded literal. *)
Definition float_lit (m e10 : Z) : spec_float :=
  if 0 <=? e10 then binary_normalize prec emax (m * 10 ^ e10) 0 false
  else SFdiv prec emax (binary_normalize prec emax m 0 false)
                       (binary_normalize prec emax (10 ^ (- e10)) 0 false).

Definition is_zero (f : spec_float) : bool :=
  match f with S754_zero _ => true | _ => false end.

(** Binary arithmetic: [int] with [int] stays exact, anything else is
    carried out on floats after converting the [int] operand. *)
Definition sub (a b : value) : result value :=
  match a, b with
  | Int x, Int y => Ok (Int (x - y))
  | _, _ =>
      bind (to_float a) (fun fa =>
      bind (to_float b) (fun fb => Ok (Float (SFsub prec emax fa fb))))
  end.

Definition add (a b : value) : result value :=
  match a, b with
  | Int x, Int y => Ok (Int (x + y))
  | _, _ =>
      bind (to_float a) (fun fa =>
      bind (to_float b) (fun fb => Ok (Float (SFadd prec emax fa fb))))
  end.

Definition mul (a b : value) : result value :=
  match a, b with
  | Int x, Int y => Ok (Int (x * y))
  | _, _ =>
      bind (to_float a) (fun fa =>
      bind (to_float b) (fun fb => Ok (Float (SFmul prec emax fa fb))))
  end.

(** True division [a / b]: always a float; a zero divisor raises. *)
Definition truediv (a b : value) : result value :=
  bind (to_float a) (fun fa =>
  bind (to_float b) (fun fb =>
    if is_zero fb then Raise ZeroDivisionError
    else Ok (Float (SFdiv prec emax fa fb)))).

(** [2 ** w] for an [int] exponent.  A non-negative exponent gives an exact
    [int].  A negative one is handed to the float power: the exponent is
    converted to a double first (which can overflow), and the power of two
    is the correctly rounded one, which underflows to [0.0] without an
    error. *)
Definition pow_two (w : Z) : result value :=
  if 0 <=? w then Ok (Int (2 ^ w))
  else
    bind (float_of_int w) (fun _ =>
      Ok (Float (SFldexp prec emax (SFone prec emax) w))).

(** Comparison [z < f] of an [int] with a float is exact in Python. *)
Definition int_lt_float (z : Z) (f : spec_float) : bool :=
  match f with
  | S754_nan => false
  | S754_infinity s => negb s
  | S754_zero _ => z <? 0
  | S754_finite s m e =>
      let sm := if s then Z.neg m else Z.pos m in
      if 0 <=? e then z <? sm * 2 ^ e
      else z * 2 ^ (- e) <? sm
  end.

Definition float_lt_int (f : spec_float) (z : Z) : bool :=
  match f with
  | S754_nan => false
  | S754_infinity s => s
  | S754_zero _ => 0 <? z
  | S754_finite s m e =>
      let sm := if s then Z.neg m else Z.pos m in
      if 0 <=? e then sm * 2 ^ e <? z
      else sm <? z * 2 ^ (- e)
  end.

Definition lt (a b : value) : bool :=
  match a, b with
  | Int x, Int y => x <? y
  | Int x, Float g => int_lt_float x g
  | Float f, Int y => float_lt_int f y
  | Float f, Float g => SFltb f g
  end.

(** The exact rational denoted by a number ([None] for NaN and the
    infinities). *)
Definition float_value (f : spec_float) : option Q :=
  match f with
  | S754_zero _ => Some 0%Q
  | S754_finite s m e =>
      let q := (inject_Z (Z.pos m) * (2 # 1) ^ e)%Q in
      Some (if s then Qopp q else q)
  | _ => None
  end.

Definition num_value (v : value) : option Q :=
  match v with
  | Int z => Some (inject_Z z)
  | Float f => float_value f
  end.


(** *** Number formatting: the format specifications [,.0f] and [.2f]

    Python prints the exact binary value of the float, rounded to the
    requested number of decimals with ties going to the even digit. *)

Definition round_half_even_div (n d : Z) : Z :=
  let q := n / d in
  match (2 * (n mod d) ?= d) with
  | Lt => q
  | Eq => if Z.even q then q else q + 1
  | Gt => q + 1
  end.

(** The integer nearest to [m * 2^e * 10^p]. *)
Definition scaled_digits (p : nat) (m : positive) (e : Z) : Z :=
  let n := Z.pos m * 10 ^ Z.of_nat p in
  if 0 <=? e then n * 2 ^ e else round_half_even_div n (2 ^ (- e)).

(** [str(z)] for an [int]. *)
Definition str (z : Z) : string := NilZero.string_of_int (Z.to_int z).

(** Thousands separators, on the digits read from the right. *)
Fixpoint group_rev (l : list ascii) : list ascii :=
  match l with
  | a :: b :: c :: ((_ :: _) as rest) =>
      a :: b :: c :: ","%char :: group_rev rest
  | _ => l
  end.

Definition group_thousands (s : string) : string :=
  string_of_list_ascii (rev (group_rev (rev (list_ascii_of_string s)))).

Fixpoint zeros (n : nat) : string :=
  match n with
  | O => EmptyString
  | S n' => String "0"%char (zeros n')
  end.

Definition pad_left (width : nat) (s : string) : string :=
  (zeros (width - String.length s) ++ s)%string.

Definition render_fixed (comma : bool) (p : nat) (n : Z) : string :=
  let ip := str (n / 10 ^ Z.of_nat p) in
  let ip := if comma then group_thousands ip else ip in
  match p with
  | O => ip
  | _ => (ip ++ "." ++ pad_left p (str (n mod 10 ^ Z.of_nat p)))%string
  end.

Definition sign_prefix (s : bool) : string :=
  if s then "-"%string else EmptyString.

Definition format_float (comma : bool) (p : nat) (f : spec_float) : string :=
  match f with
  | S754_nan => "nan"%string
  | S754_infinity s => (sign_prefix s ++ "inf")%string
  | S754_zero s => (sign_prefix s ++ render_fixed comma p 0)%string
  | S754_finite s m e =>
      (sign_prefix s ++ render_fixed comma p (scaled_digits p m e))%string
  end.

(** [format(v, ",.<p>f")] or [format(v, ".<p>f")]: an [int] is converted to
    a float first. *)
Definition format_f (comma : bool) (p : nat) (v : value) : result string :=
  bind (to_float v) (fun f => Ok (format_float comma p f)).

(** [range(lo, hi)] materialised as a list. *)
Definition range (lo hi : Z) : list Z :=
  map (fun i => lo + Z.of_nat i) (seq 0 (Z.to_nat (hi - lo))).

(** [l[-1]]: the last item; an empty list raises [IndexError]. *)
Definition last_item {A : Type} (l : list A) : result A :=
  match rev l with
  | [] => Raise IndexError
  | a :: _ => Ok a
  end.

(** A [for] loop over a list that threads a state and stops at the first
    exception. *)
Fixpoint foldM {A S : Type} (body : S -> A -> result S) (l : list A) (s : S)
  : result S :=
  match l with
  | [] => Ok s
  | a :: l' => bind (body s a) (foldM body l')
  end.

(** Assignment [l[i] = v] inside the bounds of [l]. *)
Fixpoint set_nth {A : Type} (i : nat) (v : A) (l : list A) : list A :=
  match l, i with
  | [], _ => []
  | _ :: l', O => v :: l'
  | a :: l', S i' => a :: set_nth i' v l'
  end.

(** Substring test, as Python's [p in s]. *)
Fixpoint contains (p s : string) : bool :=
  if String.prefix p s then true
  else match s with
       | EmptyString => false
       | String _ s' => contains p s'
       end.

End Py.

Import Py.

Notation "x <- c ;; k" := (Py.bind c (fun x => k))
  (at level 61, c at next level, right associativity).

(** ** Quantity engine *)

(** [calculate_grains(square)]: [2 ** (square - 1)], for an [int] index
    (the subtraction of two [int]s is exact). *)
Definition calculate_grains (square : Z) : result value :=
  pow_two (square - 1).

(** [calculate_total(up_to_square)]: [2 ** up_to_square - 1]. *)
Definition calculate_total (up_to_square : Z) : result value :=
  p <- pow_two up_to_square ;;
  Py.sub p (Int 1).

(** ** Magnitude formatter *)

Definition lit_1e6 : value := Float (float_lit 1 6).
Definition lit_1e9 : value := Float (float_lit 1 9).
Definition lit_1e12 : value := Float (float_lit 1 12).
Definition lit_1e15 : value := Float (float_lit 1 15).

(** The f-string [f"{num/d:.2f}"] followed by a suffix. *)
Definition scaled_with_suffix (num d : value) (suffix : string) : result string :=
  q <- truediv num d ;;
  s <- format_f false 2 q ;;
  Ok (s ++ suffix)%string.

Definition format_number (num : value) : result string :=
  if Py.lt num lit_1e6 then format_f true 0 num
  else if Py.lt num lit_1e9 then scaled_with_suffix num lit_1e6 "M"
  else if Py.lt num lit_1e12 then scaled_with_suffix num lit_1e9 "B"
  else if Py.lt num lit_1e15 then scaled_with_suffix num lit_1e12 "T"
  else scaled_with_suffix num lit_1e15 "Q".

(** ** Series generator *)

(** What a chart is given to draw: the main trace and, when there is one, the
    highlighted current point. *)
Record chart : Type := {
  trace_x : list Z;
  trace_y : list value;
  highlight : option (Z * value)
}.

Definition create_exponential_growth_chart (current_square : Z) : result chart :=
  let squares := Py.range 1 (Z.min (current_square + 1) 65) in
  grains <- mapM calculate_grains squares ;;
  hl <- (if 1 <? current_square
         then (g <- last_item grains ;; Ok (Some (current_square, g)))
         else Ok None) ;;
  Ok {| trace_x := squares; trace_y := grains; highlight := hl |}.

Definition create_cumulative_chart (current_square : Z) : result chart :=
  let squares := Py.range 1 (Z.min (current_square + 1) 65) in
  cumulative <- mapM calculate_total squares ;;
  hl <- (if 1 <? current_square
         then (c <- last_item cumulative ;; Ok (Some (current_square, c)))
         else Ok None) ;;
  Ok {| trace_x := squares; trace_y := cumulative; highlight := hl |}.

(** ** Comparison dataset *)

Definition newline : string := String (ascii_of_nat 10) EmptyString.

(** The dictionary literal, in insertion order. *)
Definition comparisons : list (string * value) :=
  [ ("World Population" ++ newline ++ "(8 billion)", Float (float_lit 8 9));
    ("Seconds in" ++ newline ++ "1 million years", Float (float_lit 315 11));
    ("Grains of sand" ++ newline ++ "on Earth", Float (float_lit 75 17));
    ("Total Rice Grains" ++ newline ++ "(64 squares)",
     Float (float_lit 1844674407 10));
    ("Stars in" ++ newline ++ "observable universe", Float (float_lit 1 24)) ]%string.

Record bar_chart : Type := {
  bar_x : list string;
  bar_y : list value;
  bar_text : list string
}.

Definition create_comparison_chart : result bar_chart :=
  let items := map fst comparisons in
  let values := map snd comparisons in
  text <- mapM format_number values ;;
  Ok {| bar_x := items; bar_y := values; bar_text := text |}.

(** ** The 8x8 heatmap

    The numpy array and [np.log10] belong to an external library: the element
    type of the array, its zero and the logarithm are parameters of the
    embedding.  [np_log10] receives the Python number as the program passes
    it: whatever numpy does to its argument (an [int] is rounded to a double
    first) is part of the parameter.  The annotations and the layout, which
    read the board but never change it, are left out.

    [np.array] on the nested list of hover values picks one element type for
    the whole array: a Python [int] counts as int64 when it fits, as uint64
    when it fits only there, and as a Python object beyond; a [float] counts
    as float64; int64 together with uint64, or either with float64, gives
    float64, and every element is then converted to a double. *)

Inductive dtype : Type :=
| dt_int64
| dt_uint64
| dt_float64
| dt_object.

Definition dtype_of (v : value) : dtype :=
  match v with
  | Int z =>
      if (- 2 ^ 63 <=? z) && (z <? 2 ^ 63) then dt_int64
      else if (0 <=? z) && (z <? 2 ^ 64) then dt_uint64
      else dt_object
  | Float _ => dt_float64
  end.

Definition promote (a b : dtype) : dtype :=
  match a, b with
  | dt_object, _ | _, dt_object => dt_object
  | dt_float64, _ | _, dt_float64 => dt_float64
  | dt_int64, dt_int64 => dt_int64
  | dt_uint64, dt_uint64 => dt_uint64
  | _, _ => dt_float64
  end.

(** The element type of an array built from the numbers [vs] (float64 for
    an empty array). *)
Definition common_dtype (vs : list value) : dtype :=
  match vs with
  | [] => dt_float64
  | v :: rest => fold_left (fun d x => promote d (dtype_of x)) rest (dtype_of v)
  end.

Definition cast (d : dtype) (v : value) : value :=
  match d with
  | dt_float64 =>
      match to_float v with
      | Ok f => Float f
      | Raise _ => v
      end
  | _ => v
  end.

(** [np.array(rows)] for a rectangular nested list. *)
Definition np_array (rows : list (list value)) : list (list value) :=
  map (map (cast (common_dtype (List.concat rows)))) rows.

Record heatmap (cell : Type) : Type := {
  heat_z : list (list cell);
  heat_customdata : list (list value)
}.
Arguments heat_z {cell} h.
Arguments heat_customdata {cell} h.

Section Numpy.

Variable cell : Type.
Variable cell_zero : cell.
Variable np_log10 : value -> cell.

(** [np.zeros((8, 8))] *)
Definition np_zeros_8x8 : list (list cell) := repeat (repeat cell_zero 8) 8.

(** [board[i, j] = v] *)
Definition set_cell (board : list (list cell)) (i j : Z) (v : cell)
  : list (list cell) :=
  set_nth (Z.to_nat i) (set_nth (Z.to_nat j) v (nth (Z.to_nat i) board [])) board.

(** [board[i, j]] *)
Definition get_cell (board : list (list cell)) (i j : Z) : cell :=
  nth (Z.to_nat j) (nth (Z.to_nat i) board []) cell_zero.

(** The body of the inner loop. *)
Definition heatmap_cell (current_square : Z) (i : Z)
    (board : list (list cell)) (j : Z) : result (list (list cell)) :=
  let square_num := i * 8 + j + 1 in
  if square_num <=? current_square then
    g <- calculate_grains square_num ;;
    g1 <- Py.add g (Int 1) ;;
    Ok (set_cell board i j (np_log10 g1))
  else Ok board.

Definition customdata_cell (current_square i j : Z) : result value :=
  if i * 8 + j + 1 <=? current_square
  then calculate_grains (i * 8 + j + 1)
  else Ok (Int 0).

Definition create_chessboard_heatmap (current_square : Z)
  : result (heatmap cell) :=
  board <- foldM (fun b i => foldM (heatmap_cell current_square i) (Py.range 0 8) b)
                 (Py.range 0 8) np_zeros_8x8 ;;
  customdata <- mapM (fun i => mapM (customdata_cell current_square i) (Py.range 0 8))
                     (Py.range 0 8) ;;
  Ok {| heat_z := board; heat_customdata := np_array customdata |}.

End Numpy.

(** ** The HTML summary of [update_visualization]

    The HTML literals are written with a backquote standing for the double
    quote character (the source has no backquote); [html] puts the quotes
    back. *)

Definition html (s : string) : string :=
  string_of_list_ascii
    (map (fun c => if Ascii.eqb c "`"%char then ascii_of_nat 34 else c)
         (list_ascii_of_string s)).

(** The first f-string, cut at its three placeholders. *)
Definition stats_open : string := html "
    <div style=`background: linear-gradient(135deg, #667eea 0%, #764ba2 100%); padding: 20px; border-radius: 15px; color: white; box-shadow: 0 8px 32px rgba(0,0,0,0.2);`>
        <h2 style=`margin-top: 0; text-align: center; font-weight: 700;`>📊 Current Statistics</h2>
        
        <div style=`display: flex; justify-content: space-around; margin: 20px 0;`>
            <div style=`text-align: center;`>
                <div style=`font-size: 1.2em; opacity: 0.9;`>Square Number</div>
                <div style=`font-size: 2.5em; font-weight: bold;`>".

Definition stats_square_to_grains : string := html "<span style=`font-size: 1.2em;`>/64</span></div>
            </div>
            <div style=`text-align: center;`>
                <div style=`font-size: 1.2em; opacity: 0.9;`>Grains on This Square</div>
                <div style=`font-size: 2.5em; font-weight: bold; color: #fbbf24;`>".

Definition stats_grains_to_total : string := html "</div>
            </div>
            <div style=`text-align: center;`>
                <div style=`font-size: 1.2em; opacity: 0.9;`>Total Grains So Far</div>
                <div style=`font-size: 2.5em; font-weight: bold; color: #c084fc;`>".

Definition stats_close : string := html "</div>
            </div>
        </div>
        
        <hr style=`border: 0; border-top: 1px solid rgba(255,255,255,0.3); margin: 20px 0;`>
        
        <h3 style=`text-align: center; margin-bottom: 15px;`>🌾 Real-World Context</h3>
    ".

Definition complete_board_block : string := html "
        <div style=`background: rgba(0,0,0,0.2); padding: 15px; border-radius: 10px; margin-top: 15px;`>
            <h3 style=`text-align: center; margin-top: 0; color: #fbbf24;`>🏆 Complete Board!</h3>
            <p style=`text-align: center; font-size: 1.2em;`>
                <strong>Total: 18,446,744,073,709,551,615 grains</strong><br>
                Weight: ~461 billion metric tons<br>
                More than 1,000 years of global rice production!
            </p>
        </div>
        ".

Definition lit_0_00002 : value := Float (float_lit 2 (-5)).

(** The context paragraph, chosen by the square number. *)
Definition context_paragraph (square_num : Z) (current_grains total_grains : value)
  : result string :=
  if square_num <=? 10 then
    g <- format_number current_grains ;;
    Ok ("<p style='text-align: center; font-size: 1.1em;'>At square "
        ++ str square_num ++ ", we have " ++ g
        ++ " grains - still manageable amounts!</p>")%string
  else if square_num <=? 20 then
    g <- format_number current_grains ;;
    Ok ("<p style='text-align: center; font-size: 1.1em;'>At square "
        ++ str square_num ++ ", we have " ++ g
        ++ " grains per square - this is getting significant!</p>")%string
  else if square_num <=? 30 then
    weight_kg <- Py.mul total_grains lit_0_00002 ;;
    w <- format_number weight_kg ;;
    tons <- truediv weight_kg (Int 1000) ;;
    t <- format_number tons ;;
    Ok ("<p style='text-align: center; font-size: 1.1em;'>Total weight so far: ~"
        ++ w ++ " kg (" ++ t ++ " metric tons!)</p>")%string
  else
    g <- format_number current_grains ;;
    Ok ("<p style='text-align: center; font-size: 1.1em;'>The numbers are now astronomically large! Current square alone: "
        ++ g ++ " grains</p>")%string.

(** The string [stats] that [update_visualization] builds. *)
Definition update_visualization_stats (square_num : Z) : result string :=
  current_grains <- calculate_grains square_num ;;
  total_grains <- calculate_total square_num ;;
  g <- format_number current_grains ;;
  t <- format_number total_grains ;;
  let stats := (stats_open ++ str square_num ++ stats_square_to_grains ++ g
                ++ stats_grains_to_total ++ t ++ stats_close)%string in
  para <- context_paragraph square_num current_grains total_grains ;;
  let stats := (stats ++ para)%string in
  let stats := if square_num =? 64
               then (stats ++ complete_board_block)%string else stats in
  Ok (stats ++ "</div>")%string.

Record visualization (cell : Type) : Type := {
  vis_stats : string;
  vis_chessboard : heatmap cell;
  vis_growth : chart;
  vis_cumulative : chart;
  vis_comparison : bar_chart
}.
Arguments vis_stats {cell} v.
Arguments vis_chessboard {cell} v.
Arguments vis_growth {cell} v.
Arguments vis_cumulative {cell} v.
Arguments vis_comparison {cell} v.

Definition update_visualization {cell : Type} (cell_zero : cell)
    (np_log10 : value -> cell) (square_num : Z) : result (visualization cell) :=
  stats <- update_visualization_stats square_num ;;
  chessboard <- create_chessboard_heatmap cell cell_zero np_log10 square_num ;;
  growth_chart <- create_exponential_growth_chart square_num ;;
  cumulative_chart <- create_cumulative_chart square_num ;;
  comparison_chart <- create_comparison_chart ;;
  Ok {| vis_stats := stats; vis_chessboard := chessboard;
        vis_growth := growth_chart; vis_cumulative := cumulative_chart;
        vis_comparison := comparison_chart |}.

(** ** Definitions used to state and check the properties *)

(** Does [calculate_grains n] return the float [2^(n-1)]?  The float
    [m * 2^e] is that power exactly when [m = 2^(n-1-e)]. *)
Definition grains_is_power_of_two (n : Z) : bool :=
  match calculate_grains n with
  | Ok (Float (S754_finite false m e)) =>
      (e <=? n - 1) && (Z.pos m =? 2 ^ (n - 1 - e))
  | _ => false
  end.

(** Does the summary get built without an exception? *)
Definition stats_ok (n : Z) : bool :=
  match update_visualization_stats n with
  | Ok _ => true
  | Raise _ => false
  end.

(** The heatmap loops with the exceptions factored out: what one iteration
    does to the board when nothing is raised. *)
Section HeatmapSteps.

Variable cell : Type.
Variable cell_zero : cell.
Variable np_log10 : value -> cell.

Definition log_of_square (square_num : Z) : cell :=
  np_log10 (Int (2 ^ (square_num - 1) + 1)).

Definition place (current_square i : Z) (board : list (list cell)) (j : Z)
  : list (list cell) :=
  if i * 8 + j + 1 <=? current_square
  then set_cell cell board i j (log_of_square (i * 8 + j + 1))
  else board.

Definition place_row (current_square : Z) (board : list (list cell)) (i : Z)
  : list (list cell) :=
  fold_left (place current_square i) (Py.range 0 8) board.

Definition well_shaped (board : list (list cell)) : Prop :=
  List.length board = 8%nat
  /\ forall i, (i < 8)%nat -> List.length (nth i board []) = 8%nat.

End HeatmapSteps.

(** An idealised instance of the parameters: real cells, with [np.log10]
    read as the real logarithm to base ten of the exact number (numpy's
    rounding of the argument and of the result is not in it). *)
Definition log10R (v : value) : R :=
  match v with
  | Int z => (ln (IZR z) / ln 10)%R
  | Float f =>
      match float_value f with
      | Some q => (ln (Q2R q) / ln 10)%R
      | None => 0%R
      end
  end.

(** The bar chart that [create_comparison_chart] is expected to build. *)
Definition comparison_expected : bar_chart :=
  {| bar_x := map fst comparisons;
     bar_y := [ Float (float_lit 8 9); Float (float_lit 315 11);
                Float (float_lit 75 17); Float (float_lit 1844674407 10);
                Float (float_lit 1 24) ];
     bar_text := [ "8.00B"; "31.50T"; "7500.00Q"; "18446.74Q";
                   "1000000000.00Q" ]%string |}.

(** The exact values of the five doubles. *)
Definition comparison_exact_values : list Z :=
  [ 8000000000; 31500000000000; 7500000000000000000;
    18446744070000001024; 999999999999999983222784 ].

Definition denotes (v : value) (z : Z) : Prop :=
  exists q, num_value v = Some q /\ (q == inject_Z z)%Q.

Definition py_less (a b : value) : Prop := Py.lt a b = true.

(** Marker phrases of the four context paragraphs and of the block that
    closes the board. *)
Definition tier_manageable : string := " grains - still manageable amounts!</p>".
Definition tier_significant : string :=
  " grains per square - this is getting significant!</p>".
Definition tier_weight : string := "Total weight so far: ~".
Definition tier_astronomical : string :=
  "The numbers are now astronomically large! Current square alone: ".
Definition board_total_literal : string := "18,446,744,073,709,551,615".

(** [p] occurs somewhere in [s]. *)
Definition occurs_in (p s : string) : Prop :=
  exists a b, s = (a ++ p ++ b)%string.

Definition narrative_matches (n : Z) (s : string) : bool :=
  Bool.eqb (contains tier_manageable s) (n <=? 10)
  && Bool.eqb (contains tier_significant s) ((10 <? n) && (n <=? 20))
  && Bool.eqb (contains tier_weight s) ((20 <? n) && (n <=? 30))
  && Bool.eqb (contains tier_astronomical s) (30 <? n)
  && Bool.eqb (contains board_total_literal s) (n =? 64)
  && Bool.eqb (contains complete_board_block s) (n =? 64).

Definition narrative_check (n : Z) : bool :=
  match update_visualization_stats n with
  | Ok s => narrative_matches n s
  | Raise _ => false
  end.

(** The value of the finite float [m * 2^e] counted in units of [2^-1074],
    the smallest positive double: an integer for every double. *)
Definition scaled (m : positive) (e : Z) : Z := Z.pos m * 2 ^ (e + 1074).

(** The inputs of the formatter that the specification admits: non-negative
    [int]s and non-negative finite doubles. *)
Definition nonneg_finite (v : value) : Prop :=
  match v with
  | Int z => 0 <= z
  | Float (S754_zero false) => True
  | Float (S754_finite false m e) => SpecFloat.bounded prec emax m e = true
  | Float _ => False
  end.

(** ** The annotations of the heatmap

    The loops of [create_chessboard_heatmap] once more, now with the list of
    annotations that the same iteration appends after it has written the
    cell: position, the square number as text, and a font colour that looks
    at the cell just written.  The comparison [board[i, j] > 5] belongs to
    numpy and is a parameter like the logarithm. *)

Inductive color : Type :=
| white
| black.

Record annotation : Type := {
  ann_x : Z;
  ann_y : Z;
  ann_text : string;
  ann_color : color
}.

Section NumpyAnnotations.

Variable cell : Type.
Variable cell_zero : cell.
Variable np_log10 : value -> cell.
Variable cell_gt : cell -> Z -> bool.

Definition annotate_cell (current_square i : Z)
    (state : list (list cell) * list annotation) (j : Z)
  : result (list (list cell) * list annotation) :=
  let '(board, annotations) := state in
  let square_num := i * 8 + j + 1 in
  board <- heatmap_cell cell np_log10 current_square i board j ;;
  Ok (board,
      annotations ++
      [ {| ann_x := j; ann_y := i; ann_text := str square_num;
           ann_color := if cell_gt (get_cell cell cell_zero board i j) 5
                        then white else black |} ]).

Definition create_chessboard_heatmap_annotations (current_square : Z)
  : result (list (list cell) * list annotation) :=
  foldM (fun state i =>
           foldM (annotate_cell current_square i) (Py.range 0 8) state)
        (Py.range 0 8) (np_zeros_8x8 cell cell_zero, []).

(** The same iteration when nothing is raised. *)
Definition annotate_step (current_square i : Z)
    (state : list (list cell) * list annotation) (j : Z)
  : list (list cell) * list annotation :=
  let board := place cell np_log10 current_square i (fst state) j in
  (board,
   snd state ++
   [ {| ann_x := j; ann_y := i; ann_text := str (i * 8 + j + 1);
        ann_color := if cell_gt (get_cell cell cell_zero board i j) 5
                     then white else black |} ]).

(** What the cell of row [i], column [j] holds in the end. *)
Definition cell_at (current_square i j : Z) : cell :=
  if i * 8 + j + 1 <=? current_square
  then log_of_square cell np_log10 (i * 8 + j + 1)
  else cell_zero.

Definition annotation_at (current_square i j : Z) : annotation :=
  {| ann_x := j; ann_y := i; ann_text := str (i * 8 + j + 1);
     ann_color := if cell_gt (cell_at current_square i j) 5
                  then white else black |}.

End NumpyAnnotations.

(** The nested list of hover values before [np.array] sees it. *)
Definition hover_value (current_square i j : Z) : value :=
  if i * 8 + j + 1 <=? current_square
  then Int (2 ^ (i * 8 + j + 1 - 1))
  else Int 0.

Definition hover_grid (current_square : Z) : list (list value) :=
  map (fun i => map (hover_value current_square i) (Py.range 0 8)) (Py.range 0 8).

(** Is the power [2^k] converted to a double without loss? *)
Definition power_converts_exactly (k : Z) : bool :=
  match float_of_int (2 ^ k) with
  | Ok f =>
      match float_value f with
      | Some q => Qeq_bool q (inject_Z (2 ^ k))
      | None => false
      end
  | Raise _ => false
  end.

(** [x > z] on real cells. *)
Definition gtR (x : R) (z : Z) : bool :=
  if Rlt_dec (IZR z) x then true else false.

(** A number below zero, or a float with the sign bit set. *)
Definition negative (v : value) : Prop :=
  match v with
  | Int z => z < 0
  | Float (S754_zero true) => True
  | Float (S754_infinity true) => True
  | Float (S754_finite true _ _) => True
  | Float _ => False
  end.

(** ** Reading a rendered number back *)

Definition strip_commas (s : string) : string :=
  string_of_list_ascii
    (filter (fun c => negb (Ascii.eqb c ","%char)) (list_ascii_of_string s)).

(** [int(s)] on a decimal numeral. *)
Definition parse_int (s : string) : option Z :=
  option_map Z.of_int (NilZero.int_of_string s).

(** ** The shape of a rendering *)

Definition is_digit (c : ascii) : bool :=
  ((48 <=? nat_of_ascii c) && (nat_of_ascii c <=? 57))%nat.

Definition number_chars (s : string) : bool :=
  match s with
  | EmptyString => false
  | _ => forallb (fun c => is_digit c || Ascii.eqb c ","%char
                           || Ascii.eqb c "."%char)
                 (list_ascii_of_string s)
  end.

(** [s] is a number followed by exactly the suffix [suffix]. *)
Definition shown_as (suffix s : string) : Prop :=
  exists p, s = (p ++ suffix)%string /\ number_chars p = true.

Definition shown_as_b (suffix s : string) : bool :=
  let p := substring 0 (String.length s - String.length suffix) s in
  String.eqb s (p ++ suffix) && number_chars p.

(** The suffix that goes with the grains of a square and with the running
    total through a square. *)
Definition grains_suffix (n : Z) : string :=
  if n <=? 20 then ""
  else if n <=? 30 then "M"
  else if n <=? 40 then "B"
  else if n <=? 50 then "T"
  else "Q".

Definition total_suffix (n : Z) : string := grains_suffix (n + 1).

Definition suffix_check (n : Z) : bool :=
  match bind (calculate_grains n) format_number,
        bind (calculate_total n) format_number with
  | Ok g, Ok t => shown_as_b (grains_suffix n) g && shown_as_b (total_suffix n) t
  | _, _ => false
  end.

(** The running total of a negative index: is it the float [2^n - 1]; is it
    the float [-1.0]? *)
Definition total_is_exact (n : Z) : bool :=
  match calculate_total n with
  | Ok (Float f) =>
      match float_value f with
      | Some q => Qeq_bool q ((2 # 1) ^ n - 1)
      | None => false
      end
  | _ => false
  end.

Definition total_in_unit_interval (n : Z) : bool :=
  match calculate_total n with
  | Ok (Float f) =>
      match float_value f with
      | Some q => Qle_bool (-1) q && negb (Qle_bool 0 q)
      | None => false
      end
  | _ => false
  end.

Definition minus_one : spec_float := S754_finite true 4503599627370496 (-52).

Definition total_is_minus_one (n : Z) : bool :=
  match calculate_total n with
  | Ok (Float (S754_finite true m e)) =>
      Pos.eqb m 4503599627370496 && Z.eqb e (-52)
  | _ => false
  end.

(** The context paragraphs of an index off the board. *)
Definition narrative_off_board (n : Z) : bool :=
  match update_visualization_stats n with
  | Ok s =>
      Bool.eqb (contains tier_manageable s) (n <=? 10)
      && negb (contains tier_significant s)
      && negb (contains tier_weight s)
      && Bool.eqb (contains tier_astronomical s) (30 <? n)
      && negb (contains board_total_literal s)
      && negb (contains complete_board_block s)
  | Raise _ => false
  end.

(** The third context paragraph with its two figures worked out on the exact
    total: kilograms at 50000 grains to the kilogram, tons at fifty million
    grains to the ton, each rounded to the nearest integer. *)
Definition weight_paragraph (total : Z) : string :=
  ("<p style='text-align: center; font-size: 1.1em;'>Total weight so far: ~"
   ++ group_thousands (str (round_half_even_div total 50000)) ++ " kg ("
   ++ group_thousands (str (round_half_even_div total 50000000))
   ++ " metric tons!)</p>")%string.

Definition weight_check (n : Z) : bool :=
  match update_visualization_stats n with
  | Ok s =>
      contains (weight_paragraph (2 ^ n - 1)) s
      && Bool.eqb (round_half_even_div (2 ^ n - 1) 50000000 =? 0) (n <=? 24)
  | Raise _ => false
  end.

(** * Properties *)

(** ** The runtime model: loops and ranges *)

Lemma in_range (lo hi x : Z) : In x (Py.range lo hi) <-> lo <= x < hi.
Proof.
  unfold Py.range. rewrite in_map_iff. split.
  - intros (i & <- & Hi). apply in_seq in Hi. lia.
  - intros Hx. exists (Z.to_nat (x - lo)). split; [lia |].
    apply in_seq. lia.
Qed.

Lemma range_length (lo hi : Z) : List.length (Py.range lo hi) = Z.to_nat (hi - lo).
Proof. unfold Py.range. now rewrite length_map, length_seq. Qed.

Lemma range_nth (lo hi : Z) (k : nat) (d : Z) :
  (k < Z.to_nat (hi - lo))%nat -> nth k (Py.range lo hi) d = lo + Z.of_nat k.
Proof.
  intros Hk. unfold Py.range.
  rewrite nth_indep with (d' := (fun i => lo + Z.of_nat i) 0%nat)
    by (rewrite length_map, length_seq; exact Hk).
  rewrite (map_nth (fun i => lo + Z.of_nat i)), seq_nth by exact Hk.
  reflexivity.
Qed.

Lemma range_snoc (lo hi : Z) :
  lo <= hi -> Py.range lo (hi + 1) = Py.range lo hi ++ [hi].
Proof.
  intros H. unfold Py.range.
  replace (Z.to_nat (hi + 1 - lo)) with (S (Z.to_nat (hi - lo))) by lia.
  rewrite seq_S, map_app. simpl. f_equal. f_equal. lia.
Qed.

Lemma forallb_range (P : Z -> bool) (lo hi : Z) :
  forallb P (Py.range lo hi) = true -> forall n, lo <= n < hi -> P n = true.
Proof.
  intros H n Hn. rewrite forallb_forall in H. apply H, in_range, Hn.
Qed.

Lemma mapM_Ok {A B : Type} (f : A -> result B) (g : A -> B) (l : list A) :
  (forall a, In a l -> f a = Ok (g a)) -> mapM f l = Ok (map g l).
Proof.
  induction l as [| a l IH]; intros H; simpl; [reflexivity |].
  rewrite (H a) by (left; reflexivity). simpl.
  rewrite IH by (intros b Hb; apply H; right; exact Hb). reflexivity.
Qed.

Lemma foldM_Ok {A S : Type} (body : S -> A -> result S) (pure : S -> A -> S)
    (l : list A) :
  (forall s a, In a l -> body s a = Ok (pure s a)) ->
  forall s, foldM body l s = Ok (fold_left pure l s).
Proof.
  induction l as [| a l IH]; intros H s; simpl; [reflexivity |].
  rewrite (H s a) by (left; reflexivity). simpl.
  apply IH. intros s' b Hb. apply H. right; exact Hb.
Qed.

Lemma last_item_snoc {A : Type} (l : list A) (a : A) :
  last_item (l ++ [a]) = Ok a.
Proof. unfold last_item. rewrite rev_app_distr. reflexivity. Qed.

Lemma prefix_spec (p s : string) :
  String.prefix p s = true <-> exists t, s = (p ++ t)%string.
Proof.
  revert s. induction p as [| c p IH]; intros [| d s]; cbn [String.prefix].
  - split; [intros _; exists EmptyString; reflexivity | reflexivity].
  - split; [intros _; exists (String d s); reflexivity | reflexivity].
  - split; [discriminate | intros (t & Ht); discriminate Ht].
  - destruct (ascii_dec c d) as [-> | Hne].
    + rewrite IH. split; intros (t & Ht); exists t.
      * cbn. now rewrite Ht.
      * cbn in Ht. now injection Ht.
    + split; [discriminate |]. intros (t & Ht). cbn in Ht.
      injection Ht as Hcd _. congruence.
Qed.

Lemma contains_unfold (p s : string) :
  contains p s =
  if String.prefix p s then true
  else match s with
       | EmptyString => false
       | String _ s' => contains p s'
       end.
Proof. destruct s; reflexivity. Qed.

(** [contains] decides occurrence as a substring. *)
Lemma contains_spec (p s : string) : contains p s = true <-> occurs_in p s.
Proof.
  unfold occurs_in. split.
  - induction s as [| c s IH]; rewrite contains_unfold;
      destruct (String.prefix p _) eqn:Hp.
    + intros _. apply prefix_spec in Hp. destruct Hp as (t & Ht).
      exists EmptyString, t. exact Ht.
    + discriminate.
    + intros _. apply prefix_spec in Hp. destruct Hp as (t & Ht).
      exists EmptyString, t. exact Ht.
    + intros H. destruct (IH H) as (a & b & Hab).
      exists (String c a), b. cbn. now rewrite Hab.
  - intros (a & b & Hab). revert s Hab.
    induction a as [| c a IH]; intros s Hab; rewrite contains_unfold.
    + replace (String.prefix p s) with true; [reflexivity |].
      symmetry. apply prefix_spec. exists b. exact Hab.
    + destruct (String.prefix p s); [reflexivity |].
      subst s. cbn. apply IH. reflexivity.
Qed.

(** ** Binary64 facts *)

Lemma digits2_pos_bounds (p : positive) :
  2 ^ (Z.pos (digits2_pos p) - 1) <= Z.pos p < 2 ^ Z.pos (digits2_pos p).
Proof.
  induction p as [p IH | p IH |]; simpl digits2_pos.
  - rewrite Pos2Z.inj_succ. change (Z.pos p~1) with (2 * Z.pos p + 1).
    replace (Z.succ (Z.pos (digits2_pos p)) - 1)
      with (Z.succ (Z.pos (digits2_pos p) - 1)) by lia.
    rewrite !Z.pow_succ_r by lia. lia.
  - rewrite Pos2Z.inj_succ. change (Z.pos p~0) with (2 * Z.pos p).
    replace (Z.succ (Z.pos (digits2_pos p)) - 1)
      with (Z.succ (Z.pos (digits2_pos p) - 1)) by lia.
    rewrite !Z.pow_succ_r by lia. lia.
  - split; [reflexivity | reflexivity].
Qed.

(** What validity says of a double [m * 2^e]: the exponent range, at most 53
    bits of mantissa, and exactly 53 bits above the subnormal exponent. *)
Lemma bounded_inv (m : positive) (e : Z) :
  SpecFloat.bounded prec emax m e = true ->
  -1074 <= e <= 971
  /\ Z.pos m < 9007199254740992
  /\ (-1074 < e -> 4503599627370496 <= Z.pos m).
Proof.
  change 9007199254740992 with (2 ^ 53).
  change 4503599627370496 with (2 ^ 52).
  unfold SpecFloat.bounded, canonical_mantissa, fexp, emin, prec, emax.
  intros H. apply andb_prop in H. destruct H as [Hc He].
  apply Z.eqb_eq in Hc. apply Z.leb_le in He.
  pose proof (digits2_pos_bounds m) as [Hlo Hhi].
  set (d := Z.pos (digits2_pos m)) in *.
  assert (Hd : d <= 53) by lia.
  split; [lia |]. split.
  - apply Z.lt_le_trans with (1 := Hhi). apply Z.pow_le_mono_r; lia.
  - intros Hn. assert (d = 53) by lia.
    replace 52 with (d - 1) by lia. exact Hlo.
Qed.

(** A double of smaller exponent is a smaller number. *)
Lemma scaled_lt_of_exponent (m1 m2 : positive) (e1 e2 : Z) :
  SpecFloat.bounded prec emax m1 e1 = true -> SpecFloat.bounded prec emax m2 e2 = true ->
  e1 < e2 -> scaled m1 e1 < scaled m2 e2.
Proof.
  intros H1 H2 Hlt.
  destruct (bounded_inv _ _ H1) as (He1 & Hm1 & _).
  destruct (bounded_inv _ _ H2) as (He2 & _ & Hm2).
  specialize (Hm2 ltac:(lia)). unfold scaled.
  replace (e2 + 1074) with ((e2 - e1) + (e1 + 1074)) by lia.
  rewrite (Z.pow_add_r 2 (e2 - e1) (e1 + 1074)) by lia.
  assert (Ha : 0 < 2 ^ (e1 + 1074)) by (apply Z.pow_pos_nonneg; lia).
  assert (Hb : 2 ^ 1 <= 2 ^ (e2 - e1)) by (apply Z.pow_le_mono_r; lia).
  change (2 ^ 1) with 2 in Hb.
  set (a := 2 ^ (e1 + 1074)) in *. set (b := 2 ^ (e2 - e1)) in *.
  assert (Z.pos m1 * a < 2 * 4503599627370496 * a) by nia.
  assert (2 * 4503599627370496 * a <= b * 4503599627370496 * a) by nia.
  assert (b * 4503599627370496 * a <= Z.pos m2 * (b * a)) by nia.
  lia.
Qed.

(** The float comparison of two valid positive doubles is the comparison of
    the numbers they stand for. *)
Lemma SFcompare_scaled (m1 m2 : positive) (e1 e2 : Z) :
  SpecFloat.bounded prec emax m1 e1 = true -> SpecFloat.bounded prec emax m2 e2 = true ->
  SFcompare (S754_finite false m1 e1) (S754_finite false m2 e2)
  = Some (scaled m1 e1 ?= scaled m2 e2).
Proof.
  intros H1 H2. cbn [SFcompare]. f_equal.
  destruct (Z.compare_spec e1 e2) as [-> | Hlt | Hgt].
  - unfold scaled. destruct (bounded_inv _ _ H2) as (He & _).
    rewrite <- Zmult_compare_compat_r
      by (apply Z.lt_gt, Z.pow_pos_nonneg; lia).
    reflexivity.
  - symmetry. apply Z.compare_lt_iff.
    apply scaled_lt_of_exponent; assumption.
  - symmetry. apply Z.compare_gt_iff.
    apply scaled_lt_of_exponent; assumption.
Qed.

Lemma SFltb_scaled (m1 m2 : positive) (e1 e2 : Z) :
  SpecFloat.bounded prec emax m1 e1 = true -> SpecFloat.bounded prec emax m2 e2 = true ->
  SFltb (S754_finite false m1 e1) (S754_finite false m2 e2)
  = (scaled m1 e1 <? scaled m2 e2).
Proof.
  intros H1 H2. unfold SFltb. rewrite SFcompare_scaled by assumption.
  unfold Z.ltb. now destruct (scaled m1 e1 ?= scaled m2 e2).
Qed.

(** The rational value of a double against an integer threshold. *)
Lemma value_lt_scaled (m : positive) (e T : Z) :
  -1074 <= e ->
  (inject_Z (Z.pos m) * (2 # 1) ^ e < inject_Z T)%Q
  <-> scaled m e < T * 2 ^ 1074.
Proof.
  intros He.
  assert (Hc : (0 < (2 # 1) ^ 1074)%Q) by (apply Qpower_0_lt; reflexivity).
  assert (E1 : (inject_Z (scaled m e)
                == inject_Z (Z.pos m) * (2 # 1) ^ e * (2 # 1) ^ 1074)%Q).
  { unfold scaled. rewrite inject_Z_mult, Zpower_Qpower by lia.
    change (inject_Z 2) with (2 # 1)%Q.
    rewrite Qpower_plus by discriminate. apply Qmult_assoc. }
  assert (E2 : (inject_Z (T * 2 ^ 1074) == inject_Z T * (2 # 1) ^ 1074)%Q).
  { rewrite inject_Z_mult, Zpower_Qpower by lia. reflexivity. }
  rewrite Zlt_Qlt, E1, E2.
  set (c := ((2 # 1) ^ 1074)%Q) in *.
  symmetry. apply Qmult_lt_r. exact Hc.
Qed.

(** ** Converting an [int] below [2^53] to a double is exact *)

Lemma iter_xO_value (p k : positive) :
  Z.pos (Pos.iter xO p k) = Z.pos p * 2 ^ Z.pos k.
Proof.
  induction k as [| k IH] using Pos.peano_ind.
  - cbn [Pos.iter]. rewrite Z.pow_1_r. lia.
  - rewrite Pos.iter_succ, Pos2Z.inj_succ, Z.pow_succ_r by lia.
    change (Z.pos (Pos.iter xO p k)~0) with (2 * Z.pos (Pos.iter xO p k)).
    rewrite IH. lia.
Qed.

Lemma iter_xO_digits (p k : positive) :
  Z.pos (digits2_pos (Pos.iter xO p k)) = Z.pos (digits2_pos p) + Z.pos k.
Proof.
  induction k as [| k IH] using Pos.peano_ind.
  - cbn [Pos.iter digits2_pos]. lia.
  - rewrite Pos.iter_succ. cbn [digits2_pos]. rewrite !Pos2Z.inj_succ, IH. lia.
Qed.

Lemma shr_fexp_fixed (m e : Z) (l : location) :
  fexp prec emax (Zdigits2 m + e) = e ->
  shr_fexp prec emax m e l = (shr_record_of_loc m l, e).
Proof.
  intros H. unfold shr_fexp. rewrite H, Z.sub_diag. reflexivity.
Qed.

(** Rounding a mantissa that is already in canonical position changes
    nothing. *)
Lemma binary_round_aux_canonical (sx : bool) (m : positive) (e : Z) :
  fexp prec emax (Z.pos (digits2_pos m) + e) = e -> e <= 971 ->
  binary_round_aux prec emax sx (Z.pos m) e loc_Exact = S754_finite sx m e.
Proof.
  intros Hc He. unfold binary_round_aux.
  rewrite shr_fexp_fixed by exact Hc.
  cbn [shr_record_of_loc shr_m loc_of_shr_record round_nearest_even].
  rewrite shr_fexp_fixed by exact Hc. cbn [shr_record_of_loc shr_m].
  replace (e <=? emax - prec) with true; [reflexivity |].
  symmetry. apply Z.leb_le. unfold emax, prec. lia.
Qed.

Lemma float_of_int_exact (z : Z) :
  0 < z < 9007199254740992 ->
  exists m e, float_of_int z = Ok (S754_finite false m e)
           /\ e <= 0 /\ Z.pos m = z * 2 ^ (- e).
Proof.
  intros Hz. destruct z as [| p |]; try lia.
  pose proof (digits2_pos_bounds p) as [Hlo Hhi].
  set (d := Z.pos (digits2_pos p)) in *.
  assert (Hd : d <= 53).
  { assert (Hlt : 2 ^ (d - 1) < 2 ^ 53)
      by (change (2 ^ 53) with 9007199254740992; lia).
    apply Z.pow_lt_mono_r_iff in Hlt; lia. }
  assert (Hfexp : fexp prec emax (d + 0) = d - 53).
  { unfold fexp, emin, prec, emax. lia. }
  unfold float_of_int. cbn [binary_normalize]. unfold binary_round.
  fold d. rewrite Hfexp. unfold shl_align.
  destruct (d - 53 - 0) as [| k | k] eqn:Hk; try lia.
  - rewrite binary_round_aux_canonical.
    + exists p, 0. split; [reflexivity |]. split; [lia |].
      rewrite Z.pow_0_r. lia.
    + fold d. unfold fexp, emin, prec, emax. lia.
    + lia.
  - rewrite binary_round_aux_canonical.
    + exists (Pos.iter xO p k), (d - 53). split; [reflexivity |].
      split; [lia |]. rewrite iter_xO_value. f_equal. f_equal. lia.
    + rewrite iter_xO_digits. fold d. unfold fexp, emin, prec, emax. lia.
    + lia.
Qed.

Lemma round_half_even_div_exact (n d : Z) :
  0 < d -> round_half_even_div (n * d) d = n.
Proof.
  intros Hd. unfold round_half_even_div.
  rewrite Z_mod_mult, Z_div_mult by lia.
  assert (E : (2 * 0 ?= d) = Lt) by (apply Z.compare_lt_iff; lia).
  rewrite E. reflexivity.
Qed.

(** An [int] below a million is printed digit for digit, with its thousands
    grouped. *)
Lemma format_small_int (z : Z) :
  0 <= z < 1000000 ->
  format_f true 0 (Int z) = Ok (group_thousands (str z)).
Proof.
  intros Hz. unfold format_f. cbn [to_float].
  destruct (Z.eq_dec z 0) as [-> | Hnz]; [reflexivity |].
  destruct (float_of_int_exact z) as (m & e & Hf & He & Hm); [lia |].
  rewrite Hf. cbn [bind format_float sign_prefix].
  unfold render_fixed, scaled_digits.
  change (10 ^ Z.of_nat 0) with 1. rewrite Z.mul_1_r, Hm.
  destruct (Z.leb_spec 0 e) as [He0 | He0].
  - replace e with 0 by lia. rewrite Z.pow_0_r, !Z.mul_1_r, Z.div_1_r.
    reflexivity.
  - rewrite round_half_even_div_exact by (apply Z.pow_pos_nonneg; lia).
    rewrite Z.div_1_r. reflexivity.
Qed.

(** ** Quantity engine *)

Lemma pow_two_nonneg (w : Z) : 0 <= w -> pow_two w = Ok (Int (2 ^ w)).
Proof.
  intros Hw. unfold pow_two.
  destruct (Z.leb_spec 0 w) as [_ | Hlt]; [reflexivity | lia].
Qed.

Lemma calculate_grains_int (n : Z) :
  1 <= n -> calculate_grains n = Ok (Int (2 ^ (n - 1))).
Proof.
  intros Hn. unfold calculate_grains. apply pow_two_nonneg. lia.
Qed.

Lemma calculate_total_int (n : Z) :
  0 <= n -> calculate_total n = Ok (Int (2 ^ n - 1)).
Proof.
  intros Hn. unfold calculate_total. rewrite pow_two_nonneg by assumption.
  reflexivity.
Qed.

(** C1: for every n in [1,64], [calculate_total n] is the exact integer
    [2^n - 1]; it never exceeds [2^64 - 1] and is not reduced modulo a machine
    word; at 64 it is 18446744073709551615, beyond the signed 64-bit range. *)
Theorem calculate_total_exact (n : Z) :
  1 <= n <= 64 ->
  calculate_total n = Ok (Int (2 ^ n - 1))
  /\ 1 <= 2 ^ n - 1 <= 18446744073709551615
  /\ calculate_total 64 = Ok (Int 18446744073709551615)
  /\ 2 ^ 63 - 1 < 18446744073709551615.
Proof.
  intros [Hlo Hhi]. split; [apply calculate_total_int; lia |].
  split.
  - assert (H1 : 2 ^ 1 <= 2 ^ n) by (apply Z.pow_le_mono_r; lia).
    assert (H2 : 2 ^ n <= 2 ^ 64) by (apply Z.pow_le_mono_r; lia).
    change (2 ^ 1) with 2 in H1.
    change (2 ^ 64) with 18446744073709551616 in H2. lia.
  - split; [reflexivity | reflexivity].
Qed.

Lemma calculate_total_exact_witness :
  1 <= 10 <= 64 /\ calculate_total 10 = Ok (Int (2 ^ 10 - 1)).
Proof.
  split; [lia |].
  apply (calculate_total_exact 10). lia.
Defined.

(** C2: for every n in [1,64], [calculate_grains n] is the exact integer
    [2^(n-1)]; square 1 holds 1 grain and square 64 holds [2^63]. *)
Theorem calculate_grains_exact (n : Z) :
  1 <= n <= 64 ->
  calculate_grains n = Ok (Int (2 ^ (n - 1)))
  /\ calculate_grains 1 = Ok (Int 1)
  /\ calculate_grains 64 = Ok (Int 9223372036854775808)
  /\ 9223372036854775808 = 2 ^ 63.
Proof.
  intros [Hlo Hhi]. split; [apply calculate_grains_int; lia |].
  repeat split; reflexivity.
Qed.

Lemma calculate_grains_exact_witness :
  1 <= 64 <= 64 /\ calculate_grains 64 = Ok (Int (2 ^ (64 - 1))).
Proof.
  split; [lia |].
  apply (calculate_grains_exact 64). lia.
Defined.

(** C7: the running total doubles and adds one from square to square,
    starts at 1, and is one less than the grains of the next square. *)
Theorem calculate_total_recurrence (n : Z) :
  1 <= n <= 64 ->
  calculate_total 1 = Ok (Int 1)
  /\ (2 <= n ->
      exists t p, calculate_total n = Ok (Int t)
               /\ calculate_total (n - 1) = Ok (Int p)
               /\ t = 2 * p + 1)
  /\ (n <= 63 ->
      exists t g, calculate_total n = Ok (Int t)
               /\ calculate_grains (n + 1) = Ok (Int g)
               /\ t = g - 1).
Proof.
  intros [Hlo Hhi]. split; [reflexivity |]. split.
  - intros H2. exists (2 ^ n - 1), (2 ^ (n - 1) - 1).
    rewrite !calculate_total_int by lia. repeat split.
    replace n with (Z.succ (n - 1)) at 1 by lia.
    rewrite Z.pow_succ_r by lia. lia.
  - intros H63. exists (2 ^ n - 1), (2 ^ n).
    rewrite calculate_total_int, calculate_grains_int by lia.
    replace (n + 1 - 1) with n by lia. repeat split.
Qed.

Lemma calculate_total_recurrence_witness :
  1 <= 2 <= 64
  /\ exists t p, calculate_total 2 = Ok (Int t)
              /\ calculate_total (2 - 1) = Ok (Int p) /\ t = 2 * p + 1.
Proof.
  split; [lia |].
  apply (calculate_total_recurrence 2); lia.
Defined.

(** ** Indices below the board *)

Lemma two_pow_Q (k e : Z) :
  0 <= k -> (inject_Z (2 ^ k) * (2 # 1) ^ e == (2 # 1) ^ (k + e))%Q.
Proof.
  intros Hk. rewrite Zpower_Qpower by exact Hk.
  change (inject_Z 2) with (2 # 1)%Q.
  rewrite Qpower_plus by discriminate. reflexivity.
Qed.

Lemma negative_power_not_integer (w z : Z) :
  w < 0 -> ~ ((2 # 1) ^ w == inject_Z z)%Q.
Proof.
  intros Hw Heq.
  assert (Hpos : (0 < (2 # 1) ^ w)%Q) by (apply Qpower_0_lt; reflexivity).
  assert (Hlt : ((2 # 1) ^ w < (2 # 1) ^ 0)%Q)
    by (apply Qpower_lt_compat_l; [exact Hw | reflexivity]).
  change ((2 # 1) ^ 0)%Q with 1%Q in Hlt.
  rewrite Heq in Hpos, Hlt.
  change 0%Q with (inject_Z 0) in Hpos. change 1%Q with (inject_Z 1) in Hlt.
  rewrite <- Zlt_Qlt in Hpos, Hlt. lia.
Qed.

Lemma grains_below_board_checked :
  forallb grains_is_power_of_two (Py.range (-1073) 1) = true.
Proof. vm_compute. reflexivity. Qed.

(** C10 (amended): for every integer n from -1073 to 0, [calculate_grains n]
    raises nothing and returns the float [2^(n-1)], which is not an integer
    (one half at 0), and [calculate_total 0] returns 0. *)
Theorem nonpositive_index_passes_through (n : Z) :
  -1073 <= n <= 0 ->
  (exists f q, calculate_grains n = Ok (Float f)
            /\ float_value f = Some q
            /\ (q == (2 # 1) ^ (n - 1))%Q
            /\ forall z, ~ (q == inject_Z z)%Q)
  /\ calculate_grains 0 = Ok (Float (float_lit 5 (-1)))
  /\ (exists h, float_value (float_lit 5 (-1)) = Some h /\ (h == 1 # 2)%Q)
  /\ calculate_total 0 = Ok (Int 0).
Proof.
  intros Hn. split.
  2:{ split; [vm_compute; reflexivity |]. split; [| reflexivity].
      eexists. split; [vm_compute; reflexivity | reflexivity]. }
  pose proof (forallb_range _ _ _ grains_below_board_checked n ltac:(lia)) as Hc.
  unfold grains_is_power_of_two in Hc.
  destruct (calculate_grains n) as [[z | [s | s | | [|] m e]] | err];
    try discriminate Hc.
  apply andb_prop in Hc. destruct Hc as [He Hm].
  apply Z.leb_le in He. apply Z.eqb_eq in Hm.
  assert (Hq : (inject_Z (Z.pos m) * (2 # 1) ^ e == (2 # 1) ^ (n - 1))%Q).
  { rewrite Hm, two_pow_Q by lia.
    replace (n - 1 - e + e) with (n - 1) by lia. reflexivity. }
  exists (S754_finite false m e), (inject_Z (Z.pos m) * (2 # 1) ^ e)%Q.
  repeat split; [exact Hq |].
  intros z Hz. rewrite Hq in Hz.
  apply (negative_power_not_integer (n - 1) z); [lia | exact Hz].
Qed.

Lemma nonpositive_index_passes_through_witness :
  -1073 <= -3 <= 0
  /\ exists f q, calculate_grains (-3) = Ok (Float f)
              /\ float_value f = Some q
              /\ (q == (2 # 1) ^ (-3 - 1))%Q
              /\ forall z, ~ (q == inject_Z z)%Q.
Proof.
  split; [lia |].
  apply (nonpositive_index_passes_through (-3)). lia.
Defined.

(** C10 as stated fails far below the board: at -1074 the power underflows
    and the result is the float zero, not [2^(-1075)]; at [-2^1024] the
    exponent does not convert to a float and [OverflowError] is raised. *)
Lemma nonpositive_index_underflow_counterexample :
  calculate_grains (-1074) = Ok (Float (S754_zero false))
  /\ float_value (S754_zero false) = Some 0%Q
  /\ ~ (0 == (2 # 1) ^ (-1074 - 1))%Q
  /\ calculate_grains (- 2 ^ 1024) = Raise OverflowError.
Proof.
  split; [vm_compute; reflexivity |].
  split; [reflexivity |].
  split; [| vm_compute; reflexivity].
  intros H.
  assert (Hpos : (0 < (2 # 1) ^ (-1074 - 1))%Q) by (apply Qpower_0_lt; reflexivity).
  rewrite <- H in Hpos. discriminate Hpos.
Qed.

(** ** Magnitude formatter *)

(** Python's [v < literal], for an admitted input and a float literal that
    stands for the integer [T], decides [value of v < T]. *)
Lemma lt_literal (v : value) (q : Q) (mT : positive) (eT T : Z) :
  nonneg_finite v -> num_value v = Some q ->
  SpecFloat.bounded prec emax mT eT = true -> eT < 0 -> 0 < T ->
  Z.pos mT = T * 2 ^ (- eT) ->
  Py.lt v (Float (S754_finite false mT eT)) = true <-> (q < inject_Z T)%Q.
Proof.
  intros Hv Hq Hb He HT Hm.
  destruct (bounded_inv _ _ Hb) as (HeT & _).
  assert (HsT : scaled mT eT = T * 2 ^ 1074).
  { unfold scaled. rewrite Hm, <- Z.mul_assoc, <- Z.pow_add_r by lia.
    f_equal. f_equal. lia. }
  destruct v as [z | [[|] | s | | [|] m e]]; cbn in Hv; try contradiction.
  - (* an int *)
    injection Hq as <-. cbn [Py.lt int_lt_float].
    destruct (Z.leb_spec 0 eT) as [? | _]; [lia |].
    rewrite Hm, Z.ltb_lt, <- Zlt_Qlt.
    assert (0 < 2 ^ (- eT)) by (apply Z.pow_pos_nonneg; lia).
    split; intros; nia.
  - (* +0.0 *)
    injection Hq as <-. cbn. split; [intros _ | reflexivity].
    change 0%Q with (inject_Z 0). rewrite <- Zlt_Qlt. exact HT.
  - (* a positive double *)
    injection Hq as <-. cbn [Py.lt].
    destruct (bounded_inv _ _ Hv) as (Hev & _).
    rewrite SFltb_scaled by assumption.
    rewrite Z.ltb_lt, HsT. symmetry. apply value_lt_scaled. lia.
Qed.

Lemma scaled_with_suffix_ok (v : value) (f d : spec_float) (suffix : string) :
  to_float v = Ok f -> is_zero d = false ->
  scaled_with_suffix v (Float d) suffix
  = Ok (format_float false 2 (SFdiv prec emax f d) ++ suffix)%string.
Proof.
  intros Hf Hd. unfold scaled_with_suffix, truediv.
  rewrite Hf. cbn [to_float bind]. rewrite Hd. reflexivity.
Qed.

Lemma format_f_float (comma : bool) (p : nat) (v : value) (f : spec_float) :
  to_float v = Ok f -> format_f comma p v = Ok (format_float comma p f).
Proof. intros Hf. unfold format_f. rewrite Hf. reflexivity. Qed.

(** The four thresholds as doubles. *)
Lemma literal_1e6 : float_lit 1 6 = S754_finite false 8589934592000000 (-33).
Proof. vm_compute. reflexivity. Qed.

Lemma literal_1e9 : float_lit 1 9 = S754_finite false 8388608000000000 (-23).
Proof. vm_compute. reflexivity. Qed.

Lemma literal_1e12 : float_lit 1 12 = S754_finite false 8192000000000000 (-13).
Proof. vm_compute. reflexivity. Qed.

Lemma literal_1e15 : float_lit 1 15 = S754_finite false 8000000000000000 (-3).
Proof. vm_compute. reflexivity. Qed.

Section Brackets.

Variable v : value.
Variable f : spec_float.
Variable q : Q.
Hypothesis v_admitted : nonneg_finite v.
Hypothesis v_float : to_float v = Ok f.
Hypothesis v_value : num_value v = Some q.

Lemma below_1e6 : Py.lt v lit_1e6 = true <-> (q < 1000000)%Q.
Proof.
  unfold lit_1e6. rewrite literal_1e6.
  apply (lt_literal v q _ _ 1000000); try assumption; reflexivity.
Qed.

Lemma below_1e9 : Py.lt v lit_1e9 = true <-> (q < 1000000000)%Q.
Proof.
  unfold lit_1e9. rewrite literal_1e9.
  apply (lt_literal v q _ _ 1000000000); try assumption; reflexivity.
Qed.

Lemma below_1e12 : Py.lt v lit_1e12 = true <-> (q < 1000000000000)%Q.
Proof.
  unfold lit_1e12. rewrite literal_1e12.
  apply (lt_literal v q _ _ 1000000000000); try assumption; reflexivity.
Qed.

Lemma below_1e15 : Py.lt v lit_1e15 = true <-> (q < 1000000000000000)%Q.
Proof.
  unfold lit_1e15. rewrite literal_1e15.
  apply (lt_literal v q _ _ 1000000000000000); try assumption; reflexivity.
Qed.

Lemma not_below (l : value) (T : Q) :
  (Py.lt v l = true <-> (q < T)%Q) -> (T <= q)%Q -> Py.lt v l = false.
Proof.
  intros Hiff Hle. destruct (Py.lt v l); [| reflexivity].
  exfalso. apply (Qlt_not_le q T); [apply Hiff; reflexivity | exact Hle].
Qed.

Lemma format_number_plain :
  (q < 1000000)%Q -> format_number v = Ok (format_float true 0 f).
Proof.
  intros H. unfold format_number.
  rewrite (proj2 below_1e6 H). apply format_f_float, v_float.
Qed.

Lemma format_number_M :
  (1000000 <= q)%Q -> (q < 1000000000)%Q ->
  format_number v
  = Ok (format_float false 2 (SFdiv prec emax f (float_lit 1 6)) ++ "M")%string.
Proof.
  intros H1 H2. unfold format_number.
  rewrite (not_below _ _ below_1e6 H1), (proj2 below_1e9 H2).
  apply scaled_with_suffix_ok; [exact v_float | reflexivity].
Qed.

Lemma format_number_B :
  (1000000000 <= q)%Q -> (q < 1000000000000)%Q ->
  format_number v
  = Ok (format_float false 2 (SFdiv prec emax f (float_lit 1 9)) ++ "B")%string.
Proof.
  intros H1 H2. unfold format_number.
  rewrite (not_below _ _ below_1e6
             (Qle_trans 1000000 1000000000 q ltac:(discriminate) H1)).
  rewrite (not_below _ _ below_1e9 H1), (proj2 below_1e12 H2).
  apply scaled_with_suffix_ok; [exact v_float | reflexivity].
Qed.

Lemma format_number_T :
  (1000000000000 <= q)%Q -> (q < 1000000000000000)%Q ->
  format_number v
  = Ok (format_float false 2 (SFdiv prec emax f (float_lit 1 12)) ++ "T")%string.
Proof.
  intros H1 H2. unfold format_number.
  rewrite (not_below _ _ below_1e6
             (Qle_trans 1000000 1000000000000 q ltac:(discriminate) H1)).
  rewrite (not_below _ _ below_1e9
             (Qle_trans 1000000000 1000000000000 q ltac:(discriminate) H1)).
  rewrite (not_below _ _ below_1e12 H1), (proj2 below_1e15 H2).
  apply scaled_with_suffix_ok; [exact v_float | reflexivity].
Qed.

Lemma format_number_Q :
  (1000000000000000 <= q)%Q ->
  format_number v
  = Ok (format_float false 2 (SFdiv prec emax f (float_lit 1 15)) ++ "Q")%string.
Proof.
  intros H1. unfold format_number.
  rewrite (not_below _ _ below_1e6
             (Qle_trans 1000000 1000000000000000 q ltac:(discriminate) H1)).
  rewrite (not_below _ _ below_1e9
             (Qle_trans 1000000000 1000000000000000 q ltac:(discriminate) H1)).
  rewrite (not_below _ _ below_1e12
             (Qle_trans 1000000000000 1000000000000000 q ltac:(discriminate) H1)).
  rewrite (not_below _ _ below_1e15 H1).
  apply scaled_with_suffix_ok; [exact v_float | reflexivity].
Qed.

End Brackets.

(** C3 (amended): for every non-negative [int] that converts to a float and
    every non-negative finite double, [format_number] picks its rendering by
    the exact value q of the input: below 1e6 the value printed with no
    decimals and grouped thousands (an [int] digit for digit); from 1e6 up to
    but not including 1e9 the quotient by 1e6 with two decimals and "M"; then
    "B", "T" and, from 1e15 on, "Q"; a boundary belongs to the higher
    bracket. *)
Theorem format_number_brackets (v : value) (f : spec_float) (q : Q) :
  nonneg_finite v -> to_float v = Ok f -> num_value v = Some q ->
  ((q < 1000000)%Q -> format_number v = Ok (format_float true 0 f))
  /\ (forall z, v = Int z -> z < 1000000 ->
        format_number v = Ok (group_thousands (str z)))
  /\ ((1000000 <= q)%Q -> (q < 1000000000)%Q ->
        format_number v
        = Ok (format_float false 2 (SFdiv prec emax f (float_lit 1 6)) ++ "M")%string)
  /\ ((1000000000 <= q)%Q -> (q < 1000000000000)%Q ->
        format_number v
        = Ok (format_float false 2 (SFdiv prec emax f (float_lit 1 9)) ++ "B")%string)
  /\ ((1000000000000 <= q)%Q -> (q < 1000000000000000)%Q ->
        format_number v
        = Ok (format_float false 2 (SFdiv prec emax f (float_lit 1 12)) ++ "T")%string)
  /\ ((1000000000000000 <= q)%Q ->
        format_number v
        = Ok (format_float false 2 (SFdiv prec emax f (float_lit 1 15)) ++ "Q")%string)
  /\ format_number (Int 1000000) = Ok "1.00M"%string
  /\ format_number (Int 999999) = Ok "999,999"%string
  /\ format_number (Int 512) = Ok "512"%string
  /\ format_number (Int 1023) = Ok "1,023"%string.
Proof.
  intros Hv Hf Hq.
  split; [apply format_number_plain; assumption |].
  split.
  { intros z -> Hz. cbn in Hv, Hq. injection Hq as <-.
    unfold format_number.
    rewrite (proj2 (below_1e6 (Int z) (inject_Z z) Hv eq_refl)).
    - apply format_small_int. lia.
    - change 1000000%Q with (inject_Z 1000000). rewrite <- Zlt_Qlt. exact Hz. }
  split; [apply format_number_M; assumption |].
  split; [apply format_number_B; assumption |].
  split; [apply format_number_T; assumption |].
  split; [apply format_number_Q; assumption |].
  repeat split; vm_compute; reflexivity.
Qed.

Lemma format_number_brackets_witness :
  nonneg_finite (Int 1000000)
  /\ format_number (Int 1000000)
     = Ok (format_float false 2
             (SFdiv prec emax (float_lit 1 6) (float_lit 1 6)) ++ "M")%string.
Proof.
  split; [cbn; lia |].
  assert (Hv : nonneg_finite (Int 1000000)) by (cbn; lia).
  assert (Hf : to_float (Int 1000000) = Ok (float_lit 1 6))
    by (vm_compute; reflexivity).
  destruct (format_number_brackets (Int 1000000) (float_lit 1 6) 1000000%Q
              Hv Hf eq_refl) as (_ & _ & HM & _).
  apply HM; [discriminate | reflexivity].
Defined.

(** C3 as stated fails for the non-negative [int]s that are too large for a
    double: the division that scales them raises [OverflowError]. *)
Lemma format_number_overflow_counterexample :
  nonneg_finite (Int (2 ^ 1024))
  /\ format_number (Int (2 ^ 1024)) = Raise OverflowError
  /\ format_number (Int (2 ^ 1024 - 2 ^ 970)) = Raise OverflowError
  /\ exists s, format_number (Int (2 ^ 1024 - 2 ^ 970 - 1)) = Ok s.
Proof.
  split; [cbn; lia |].
  do 2 (split; [vm_compute; reflexivity |]).
  eexists. vm_compute. reflexivity.
Qed.

(** ** Series generator *)

Lemma squares_upper (n : Z) : Z.min (n + 1) 65 = Z.min n 64 + 1.
Proof. lia. Qed.

Lemma firstn_of_seq (n start len : nat) :
  firstn n (seq start len) = seq start (Nat.min n len).
Proof.
  revert start len. induction n as [| n IH]; intros start [| len]; simpl;
    try reflexivity.
  now rewrite IH.
Qed.

Lemma firstn_range (lo hi k : Z) :
  0 <= k <= hi - lo ->
  firstn (Z.to_nat k) (Py.range lo hi) = Py.range lo (lo + k).
Proof.
  intros Hk. unfold Py.range. rewrite firstn_map, firstn_of_seq. f_equal. f_equal. lia.
Qed.

Lemma sum_snoc (l : list Z) (x : Z) :
  fold_right Z.add 0 (l ++ [x]) = fold_right Z.add 0 l + x.
Proof. induction l as [| a l IH]; simpl; lia. Qed.

(** The grains of the first [k] squares add up to [2^k - 1]. *)
Lemma sum_of_doublings (k : nat) :
  fold_right Z.add 0
    (map (fun s => 2 ^ (s - 1)) (Py.range 1 (Z.of_nat k + 1)))
  = 2 ^ Z.of_nat k - 1.
Proof.
  induction k as [| k IH]; [reflexivity |].
  replace (Z.of_nat (S k) + 1) with (Z.of_nat k + 1 + 1) by lia.
  rewrite range_snoc by lia. rewrite map_app.
  change (map (fun s => 2 ^ (s - 1)) [Z.of_nat k + 1])
    with [2 ^ (Z.of_nat k + 1 - 1)].
  rewrite sum_snoc, IH.
  replace (Z.of_nat k + 1 - 1) with (Z.of_nat k) by lia.
  replace (Z.of_nat (S k)) with (Z.succ (Z.of_nat k)) by lia.
  rewrite Z.pow_succ_r by lia. lia.
Qed.

Lemma last_of_mapped_range {A : Type} (f : Z -> A) (hi : Z) :
  1 <= hi -> last_item (map f (Py.range 1 (hi + 1))) = Ok (f hi).
Proof.
  intros H. rewrite range_snoc by exact H. rewrite map_app. apply last_item_snoc.
Qed.

Lemma create_exponential_growth_chart_ok (n : Z) :
  create_exponential_growth_chart n =
  Ok {| trace_x := Py.range 1 (Z.min n 64 + 1);
        trace_y := map (fun s => Int (2 ^ (s - 1))) (Py.range 1 (Z.min n 64 + 1));
        highlight := if 1 <? n then Some (n, Int (2 ^ (Z.min n 64 - 1))) else None |}.
Proof.
  unfold create_exponential_growth_chart. rewrite squares_upper.
  rewrite (mapM_Ok calculate_grains (fun s => Int (2 ^ (s - 1)))).
  2:{ intros s Hs. apply in_range in Hs. apply calculate_grains_int. lia. }
  simpl. destruct (Z.ltb_spec 1 n) as [Hn | Hn]; [| reflexivity].
  rewrite last_of_mapped_range by lia. reflexivity.
Qed.

Lemma create_cumulative_chart_ok (n : Z) :
  create_cumulative_chart n =
  Ok {| trace_x := Py.range 1 (Z.min n 64 + 1);
        trace_y := map (fun s => Int (2 ^ s - 1)) (Py.range 1 (Z.min n 64 + 1));
        highlight := if 1 <? n then Some (n, Int (2 ^ Z.min n 64 - 1)) else None |}.
Proof.
  unfold create_cumulative_chart. rewrite squares_upper.
  rewrite (mapM_Ok calculate_total (fun s => Int (2 ^ s - 1))).
  2:{ intros s Hs. apply in_range in Hs. apply calculate_total_int. lia. }
  simpl. destruct (Z.ltb_spec 1 n) as [Hn | Hn]; [| reflexivity].
  rewrite last_of_mapped_range by lia. reflexivity.
Qed.

(** C5: for every upTo >= 1 both series have [min upTo 64] points, the
    x-values are 1, 2, ... in order without gaps, point i of the per-square
    series is [calculate_grains i], point i of the cumulative series is
    [calculate_total i], and the cumulative value at i is the sum of the
    per-square values of squares 1..i. *)
Theorem series_contents (upTo : Z) :
  1 <= upTo ->
  exists g c gs cs,
    create_exponential_growth_chart upTo = Ok g
    /\ create_cumulative_chart upTo = Ok c
    /\ trace_y g = map Int gs /\ trace_y c = map Int cs
    /\ List.length (trace_x g) = Z.to_nat (Z.min upTo 64)
    /\ List.length gs = Z.to_nat (Z.min upTo 64)
    /\ List.length (trace_x c) = Z.to_nat (Z.min upTo 64)
    /\ List.length cs = Z.to_nat (Z.min upTo 64)
    /\ forall i, 1 <= i <= Z.min upTo 64 ->
         nth (Z.to_nat (i - 1)) (trace_x g) 0 = i
         /\ nth (Z.to_nat (i - 1)) (trace_x c) 0 = i
         /\ calculate_grains i = Ok (Int (nth (Z.to_nat (i - 1)) gs 0))
         /\ calculate_total i = Ok (Int (nth (Z.to_nat (i - 1)) cs 0))
         /\ nth (Z.to_nat (i - 1)) cs 0
            = fold_right Z.add 0 (firstn (Z.to_nat i) gs).
Proof.
  intros Hup. set (L := Z.min upTo 64).
  set (squares := Py.range 1 (L + 1)).
  exists {| trace_x := squares;
            trace_y := map (fun s => Int (2 ^ (s - 1))) squares;
            highlight := if 1 <? upTo
                         then Some (upTo, Int (2 ^ (L - 1))) else None |},
         {| trace_x := squares;
            trace_y := map (fun s => Int (2 ^ s - 1)) squares;
            highlight := if 1 <? upTo
                         then Some (upTo, Int (2 ^ L - 1)) else None |},
         (map (fun s => 2 ^ (s - 1)) squares),
         (map (fun s => 2 ^ s - 1) squares).
  split; [apply create_exponential_growth_chart_ok |].
  split; [apply create_cumulative_chart_ok |].
  simpl trace_x; simpl trace_y.
  split; [now rewrite map_map |]. split; [now rewrite map_map |].
  assert (Hlen : List.length squares = Z.to_nat L).
  { unfold squares. rewrite range_length. f_equal. lia. }
  rewrite !length_map, Hlen.
  do 4 (split; [reflexivity |]).
  intros i Hi.
  assert (Hk : (Z.to_nat (i - 1) < Z.to_nat (L + 1 - 1))%nat) by lia.
  assert (Hsq : nth (Z.to_nat (i - 1)) squares 0 = i).
  { unfold squares. rewrite range_nth by exact Hk. lia. }
  assert (Hg : nth (Z.to_nat (i - 1)) (map (fun s => 2 ^ (s - 1)) squares) 0
               = 2 ^ (i - 1)).
  { rewrite nth_indep with (d' := (fun s => 2 ^ (s - 1)) 0)
      by (rewrite length_map, Hlen; lia).
    rewrite (map_nth (fun s => 2 ^ (s - 1))), Hsq. reflexivity. }
  assert (Hc : nth (Z.to_nat (i - 1)) (map (fun s => 2 ^ s - 1) squares) 0
               = 2 ^ i - 1).
  { rewrite nth_indep with (d' := (fun s => 2 ^ s - 1) 0)
      by (rewrite length_map, Hlen; lia).
    rewrite (map_nth (fun s => 2 ^ s - 1)), Hsq. reflexivity. }
  rewrite Hg, Hc.
  split; [exact Hsq |]. split; [exact Hsq |].
  split; [apply calculate_grains_int; lia |].
  split; [apply calculate_total_int; lia |].
  rewrite firstn_map. unfold squares. rewrite firstn_range by lia.
  pose proof (sum_of_doublings (Z.to_nat i)) as Hs.
  rewrite Z2Nat.id in Hs by lia. rewrite Z.add_comm. symmetry. exact Hs.
Qed.

Lemma series_contents_witness :
  1 <= 70 /\
  exists g c gs cs,
    create_exponential_growth_chart 70 = Ok g
    /\ create_cumulative_chart 70 = Ok c
    /\ trace_y g = map Int gs /\ trace_y c = map Int cs
    /\ List.length (trace_x g) = Z.to_nat (Z.min 70 64)
    /\ List.length gs = Z.to_nat (Z.min 70 64)
    /\ List.length (trace_x c) = Z.to_nat (Z.min 70 64)
    /\ List.length cs = Z.to_nat (Z.min 70 64)
    /\ forall i, 1 <= i <= Z.min 70 64 ->
         nth (Z.to_nat (i - 1)) (trace_x g) 0 = i
         /\ nth (Z.to_nat (i - 1)) (trace_x c) 0 = i
         /\ calculate_grains i = Ok (Int (nth (Z.to_nat (i - 1)) gs 0))
         /\ calculate_total i = Ok (Int (nth (Z.to_nat (i - 1)) cs 0))
         /\ nth (Z.to_nat (i - 1)) cs 0
            = fold_right Z.add 0 (firstn (Z.to_nat i) gs).
Proof.
  split; [lia |].
  apply (series_contents 70). lia.
Defined.

(** ** The heatmap *)

Lemma length_set_nth {A : Type} (i : nat) (v : A) (l : list A) :
  List.length (set_nth i v l) = List.length l.
Proof.
  revert i. induction l as [| a l IH]; intros [| i]; simpl; try reflexivity.
  now rewrite IH.
Qed.

Lemma nth_set_nth {A : Type} (l : list A) (i k : nat) (v d : A) :
  nth k (set_nth i v l) d =
  if ((i =? k) && (i <? List.length l))%nat then v else nth k l d.
Proof.
  revert i k. induction l as [| a l IH]; intros [| i] [| k]; simpl;
    try reflexivity.
  - now rewrite andb_false_r.
  - rewrite IH. reflexivity.
Qed.

Section HeatmapFacts.

Variable cell : Type.
Variable cell_zero : cell.
Variable np_log10 : value -> cell.

Let get := get_cell cell cell_zero.
Let shaped := well_shaped cell.

Lemma zeros_shaped : shaped (np_zeros_8x8 cell cell_zero).
Proof.
  split; [reflexivity |].
  intros i Hi. do 8 (destruct i as [| i]; [reflexivity |]). lia.
Qed.

Lemma zeros_get (r c : Z) : get (np_zeros_8x8 cell cell_zero) r c = cell_zero.
Proof.
  unfold get, get_cell, np_zeros_8x8.
  destruct (Nat.lt_ge_cases (Z.to_nat r) 8) as [Hr | Hr].
  - rewrite nth_indep with (d' := repeat cell_zero 8)
      by (rewrite repeat_length; exact Hr).
    rewrite nth_repeat. apply nth_repeat.
  - rewrite (nth_overflow (repeat (repeat cell_zero 8) 8))
      by (rewrite repeat_length; exact Hr).
    now destruct (Z.to_nat c).
Qed.

Lemma set_cell_shaped (b : list (list cell)) (i j : Z) (v : cell) :
  shaped b -> shaped (set_cell cell b i j v).
Proof.
  intros [Hlen Hrows]. unfold set_cell. split.
  - now rewrite length_set_nth.
  - intros k Hk. rewrite nth_set_nth.
    destruct ((Z.to_nat i =? k) && (Z.to_nat i <? List.length b))%nat eqn:E.
    + apply andb_prop in E. destruct E as [E _]. apply Nat.eqb_eq in E.
      rewrite length_set_nth. apply Hrows. lia.
    + apply Hrows, Hk.
Qed.

Lemma get_set_cell (b : list (list cell)) (i j r c : Z) (v : cell) :
  shaped b -> 0 <= i < 8 -> 0 <= j < 8 -> 0 <= r -> 0 <= c ->
  get (set_cell cell b i j v) r c =
  if (i =? r) && (j =? c) then v else get b r c.
Proof.
  intros [Hlen Hrows] Hi Hj Hr Hc. unfold get, get_cell, set_cell.
  rewrite nth_set_nth, Hlen.
  destruct (Z.eqb_spec i r) as [-> | Hne].
  - rewrite Nat.eqb_refl. replace (Z.to_nat r <? 8)%nat with true
      by (symmetry; apply Nat.ltb_lt; lia).
    cbn [andb]. rewrite nth_set_nth, Hrows by lia.
    replace (Z.to_nat j <? 8)%nat with true
      by (symmetry; apply Nat.ltb_lt; lia).
    rewrite andb_true_r.
    destruct (Z.eqb_spec j c) as [-> | Hjc].
    + now rewrite Nat.eqb_refl.
    + replace (Z.to_nat j =? Z.to_nat c)%nat with false; [reflexivity |].
      symmetry. apply Nat.eqb_neq. lia.
  - replace (Z.to_nat i =? Z.to_nat r)%nat with false; [reflexivity |].
    symmetry. apply Nat.eqb_neq. lia.
Qed.

Lemma heatmap_cell_places (cur i j : Z) (b : list (list cell)) :
  0 <= i -> 0 <= j ->
  heatmap_cell cell np_log10 cur i b j = Ok (place cell np_log10 cur i b j).
Proof.
  intros Hi Hj. unfold heatmap_cell, place, log_of_square.
  destruct (i * 8 + j + 1 <=? cur); [| reflexivity].
  rewrite calculate_grains_int by lia. reflexivity.
Qed.

(** Invariant of the inner loop: the board keeps its shape, and the cells of
    row [i] met so far hold their logarithm when their square is reached. *)
Lemma place_columns (cur i : Z) (js : list Z) :
  0 <= i < 8 -> (forall j, In j js -> 0 <= j < 8) ->
  forall b, shaped b ->
    shaped (fold_left (place cell np_log10 cur i) js b)
    /\ forall r c, 0 <= r -> 0 <= c ->
         get (fold_left (place cell np_log10 cur i) js b) r c =
         if (i =? r) && existsb (Z.eqb c) js && (r * 8 + c + 1 <=? cur)
         then log_of_square cell np_log10 (r * 8 + c + 1)
         else get b r c.
Proof.
  intros Hi. induction js as [| j js IH]; intros Hjs b Hb.
  - split; [exact Hb |]. intros r c _ _. simpl. now rewrite andb_false_r.
  - assert (Hj : 0 <= j < 8) by (apply Hjs; left; reflexivity).
    assert (Hb' : shaped (place cell np_log10 cur i b j)).
    { unfold place. destruct (_ <=? cur); [apply set_cell_shaped |]; exact Hb. }
    destruct (IH (fun x Hx => Hjs x (or_intror Hx)) _ Hb') as [Hs Hg].
    split; [exact Hs |]. intros r c Hr Hc. cbn [fold_left]. rewrite Hg by assumption.
    cbn [existsb]. unfold place.
    destruct (Z.eqb_spec i r) as [-> | Hir]; cbn [andb].
    + destruct (Z.eqb_spec c j) as [-> | Hcj]; cbn [orb].
      * destruct (r * 8 + j + 1 <=? cur) eqn:Hle.
        -- rewrite get_set_cell by (try assumption; lia).
           rewrite !Z.eqb_refl. simpl. now destruct (existsb _ js).
        -- now rewrite andb_false_r.
      * destruct (existsb (Z.eqb c) js && (r * 8 + c + 1 <=? cur)); [reflexivity |].
        destruct (r * 8 + j + 1 <=? cur); [| reflexivity].
        rewrite get_set_cell by (try assumption; lia).
        rewrite Z.eqb_refl. simpl.
        destruct (Z.eqb_spec j c); [congruence | reflexivity].
    + destruct (i * 8 + j + 1 <=? cur); [| reflexivity].
      rewrite get_set_cell by (try assumption; lia).
      destruct (Z.eqb_spec i r); [contradiction | reflexivity].
Qed.

(** Invariant of the outer loop. *)
Lemma place_rows (cur : Z) (rows : list Z) :
  (forall i, In i rows -> 0 <= i < 8) ->
  forall b, shaped b ->
    shaped (fold_left (place_row cell np_log10 cur) rows b)
    /\ forall r c, 0 <= r -> 0 <= c < 8 ->
         get (fold_left (place_row cell np_log10 cur) rows b) r c =
         if existsb (Z.eqb r) rows && (r * 8 + c + 1 <=? cur)
         then log_of_square cell np_log10 (r * 8 + c + 1)
         else get b r c.
Proof.
  induction rows as [| i rows IH]; intros Hrows b Hb.
  - split; [exact Hb | reflexivity].
  - assert (Hi : 0 <= i < 8) by (apply Hrows; left; reflexivity).
    destruct (place_columns cur i (Py.range 0 8) Hi
                (fun j Hj => proj1 (in_range 0 8 j) Hj) b Hb) as [Hs1 Hg1].
    destruct (IH (fun x Hx => Hrows x (or_intror Hx)) _ Hs1) as [Hs Hg].
    split; [exact Hs |]. intros r c Hr Hc. cbn [fold_left].
    fold (place_row cell np_log10 cur b i) in Hg1 |- *.
    rewrite Hg by assumption. unfold place_row. rewrite Hg1 by lia.
    assert (Hin : existsb (Z.eqb c) (Py.range 0 8) = true).
    { apply existsb_exists. exists c. split; [apply in_range; lia | apply Z.eqb_refl]. }
    rewrite Hin, andb_true_r. cbn [existsb].
    rewrite (Z.eqb_sym r i).
    destruct (i =? r); simpl; [| reflexivity].
    destruct (r * 8 + c + 1 <=? cur); [| now rewrite andb_false_r].
    now destruct (existsb (Z.eqb r) rows).
Qed.

(** The heatmap never raises, whatever the selected square; its grid is 8x8
    and each cell holds the logarithm of its square's grains plus one when
    the square is reached, and the initial zero otherwise. *)
Lemma create_chessboard_heatmap_grid (cur : Z) :
  exists h,
    create_chessboard_heatmap cell cell_zero np_log10 cur = Ok h
    /\ shaped (heat_z h)
    /\ forall r c, 0 <= r < 8 -> 0 <= c < 8 ->
         get (heat_z h) r c =
         if r * 8 + c + 1 <=? cur
         then log_of_square cell np_log10 (r * 8 + c + 1)
         else cell_zero.
Proof.
  unfold create_chessboard_heatmap.
  rewrite (foldM_Ok _ (place_row cell np_log10 cur)).
  2:{ intros b i Hi. apply in_range in Hi. unfold place_row.
      apply foldM_Ok. intros b' j Hj. apply in_range in Hj.
      apply heatmap_cell_places; lia. }
  cbn [bind].
  rewrite (mapM_Ok _ (fun i => map (fun j => if i * 8 + j + 1 <=? cur
                                             then Int (2 ^ (i * 8 + j + 1 - 1))
                                             else Int 0) (Py.range 0 8))).
  2:{ intros i Hi. apply in_range in Hi. apply mapM_Ok. intros j Hj.
      apply in_range in Hj. unfold customdata_cell.
      destruct (_ <=? cur); [apply calculate_grains_int; lia | reflexivity]. }
  cbn [bind]. eexists. split; [reflexivity |]. cbn [heat_z].
  destruct (place_rows cur (Py.range 0 8)
              (fun i Hi => proj1 (in_range 0 8 i) Hi) _ zeros_shaped) as [Hs Hg].
  split; [exact Hs |]. intros r c Hr Hc. rewrite Hg by lia.
  assert (Hin : existsb (Z.eqb r) (Py.range 0 8) = true).
  { apply existsb_exists. exists r. split; [apply in_range; lia | apply Z.eqb_refl]. }
  rewrite Hin, zeros_get. reflexivity.
Qed.

End HeatmapFacts.

Lemma log10R_positive (z : Z) : 2 <= z -> (0 < log10R (Int z))%R.
Proof.
  intros Hz. unfold log10R.
  assert (H10 : (0 < ln 10)%R).
  { rewrite <- ln_1. apply ln_increasing; lra. }
  assert (Hln : (0 < ln (IZR z))%R).
  { rewrite <- ln_1. apply ln_increasing; [lra |]. apply IZR_lt. lia. }
  apply Rdiv_lt_0_compat; assumption.
Qed.

(** C6: for every upTo in [1,64] and whatever numpy's logarithm computes,
    the grid is 8x8, the cell (row, col) stands for square
    [row*8 + col + 1]; when that square is at most upTo the cell holds the
    logarithm of [calculate_grains square + 1] (the Python [int] handed to
    [np.log10]), and when it is beyond upTo the cell is exactly the initial
    zero; for upTo = 1 the cell of square 1 holds [np.log10 2], which differs
    from zero as soon as the logarithm of 2 does, and the other 63 cells are
    exactly zero. *)
Theorem heatmap_log_grid (cell : Type) (cell_zero : cell)
    (np_log10 : value -> cell) (upTo : Z) :
  1 <= upTo <= 64 ->
  exists h,
    create_chessboard_heatmap cell cell_zero np_log10 upTo = Ok h
    /\ well_shaped cell (heat_z h)
    /\ (forall row col, 0 <= row < 8 -> 0 <= col < 8 ->
          (row * 8 + col + 1 <= upTo ->
             exists g v, calculate_grains (row * 8 + col + 1) = Ok g
                      /\ Py.add g (Int 1) = Ok v
                      /\ v = Int (2 ^ (row * 8 + col + 1 - 1) + 1)
                      /\ get_cell cell cell_zero (heat_z h) row col
                         = np_log10 v)
          /\ (upTo < row * 8 + col + 1 ->
                get_cell cell cell_zero (heat_z h) row col = cell_zero))
    /\ (upTo = 1 ->
          get_cell cell cell_zero (heat_z h) 0 0 = np_log10 (Int 2)
          /\ (np_log10 (Int 2) <> cell_zero ->
                get_cell cell cell_zero (heat_z h) 0 0 <> cell_zero)
          /\ forall row col, 0 <= row < 8 -> 0 <= col < 8 ->
               row <> 0 \/ col <> 0 ->
               get_cell cell cell_zero (heat_z h) row col = cell_zero).
Proof.
  intros Hup.
  destruct (create_chessboard_heatmap_grid cell cell_zero np_log10 upTo)
    as (h & Hh & Hshape & Hcells).
  assert (Hreached : forall row col, 0 <= row < 8 -> 0 <= col < 8 ->
            row * 8 + col + 1 <= upTo ->
            get_cell cell cell_zero (heat_z h) row col
            = np_log10 (Int (2 ^ (row * 8 + col + 1 - 1) + 1))).
  { intros row col Hr Hc Hle. rewrite Hcells by assumption.
    destruct (Z.leb_spec (row * 8 + col + 1) upTo); [reflexivity | lia]. }
  assert (Hbeyond : forall row col, 0 <= row < 8 -> 0 <= col < 8 ->
            upTo < row * 8 + col + 1 ->
            get_cell cell cell_zero (heat_z h) row col = cell_zero).
  { intros row col Hr Hc Hlt. rewrite Hcells by assumption.
    destruct (Z.leb_spec (row * 8 + col + 1) upTo); [lia | reflexivity]. }
  exists h. split; [exact Hh |]. split; [exact Hshape |]. split.
  - intros row col Hr Hc. split; [| apply Hbeyond; assumption].
    intros Hle.
    exists (Int (2 ^ (row * 8 + col + 1 - 1))),
           (Int (2 ^ (row * 8 + col + 1 - 1) + 1)).
    split; [apply calculate_grains_int; lia |].
    split; [reflexivity |]. split; [reflexivity |].
    apply Hreached; assumption.
  - intros ->.
    assert (H00 : get_cell cell cell_zero (heat_z h) 0 0 = np_log10 (Int 2)).
    { rewrite Hreached by lia. reflexivity. }
    split; [exact H00 |]. split.
    + intros Hnz. rewrite H00. exact Hnz.
    + intros row col Hr Hc Hne. apply Hbeyond; try assumption. lia.
Qed.

Lemma heatmap_log_grid_witness :
  1 <= 1 <= 64 /\
  exists h,
    create_chessboard_heatmap R 0%R log10R 1 = Ok h
    /\ get_cell R 0%R (heat_z h) 0 0 = log10R (Int 2)
    /\ get_cell R 0%R (heat_z h) 0 0 <> 0%R
    /\ forall row col, 0 <= row < 8 -> 0 <= col < 8 ->
         row <> 0 \/ col <> 0 ->
         get_cell R 0%R (heat_z h) row col = 0%R.
Proof.
  split; [lia |].
  destruct (heatmap_log_grid R 0%R log10R 1 ltac:(lia)) as (h & Hh & _ & _ & H1).
  exists h. split; [exact Hh |].
  destruct (H1 eq_refl) as (H00 & Hnz & Hrest).
  split; [exact H00 |]. split; [| exact Hrest].
  apply Hnz. apply Rgt_not_eq, Rlt_gt, log10R_positive. lia.
Defined.

(** ** Comparison dataset and the whole update *)

Lemma create_comparison_chart_ok :
  create_comparison_chart = Ok comparison_expected.
Proof. vm_compute. reflexivity. Qed.

(** Once the summary string is built, the rest of [update_visualization]
    cannot raise. *)
Lemma update_visualization_returns {cell : Type} (cell_zero : cell)
    (np_log10 : value -> cell) (n : Z) (s : string) :
  update_visualization_stats n = Ok s ->
  exists h g c,
    update_visualization cell_zero np_log10 n
    = Ok {| vis_stats := s; vis_chessboard := h; vis_growth := g;
            vis_cumulative := c; vis_comparison := comparison_expected |}.
Proof.
  intros Hs. unfold update_visualization. rewrite Hs.
  destruct (create_chessboard_heatmap_grid cell cell_zero np_log10 n)
    as (h & Hh & _).
  rewrite create_exponential_growth_chart_ok, create_cumulative_chart_ok,
    create_comparison_chart_ok, Hh.
  cbn [bind]. eauto.
Qed.

Lemma stats_ok_inv (n : Z) :
  stats_ok n = true -> exists s, update_visualization_stats n = Ok s.
Proof.
  unfold stats_ok. destruct (update_visualization_stats n) as [s | e];
    [eauto | discriminate].
Qed.

Lemma narrative_checked : forallb narrative_check (Py.range 1 65) = true.
Proof. vm_compute. reflexivity. Qed.

Lemma denotes_intro (f : spec_float) (q : Q) (z : Z) :
  float_value f = Some q -> Qeq_bool q (inject_Z z) = true ->
  denotes (Float f) z.
Proof. intros Hq He. exists q. split; [exact Hq | apply Qeq_bool_eq, He]. Qed.

(** C8: whatever square is selected, the comparison chart handed out is the
    one that [create_comparison_chart] builds: exactly five entries, in the
    order of the dictionary, with the doubles written 8e9, 3.15e13, 7.5e18,
    1.844674407e19 and 1e24, strictly ascending. *)
Theorem comparison_dataset_fixed (cell : Type) (cell_zero : cell)
    (np_log10 : value -> cell) (n : Z) :
  1 <= n <= 64 ->
  exists out c,
    update_visualization cell_zero np_log10 n = Ok out
    /\ create_comparison_chart = Ok c
    /\ vis_comparison out = c
    /\ List.length (bar_x c) = 5%nat
    /\ List.length (bar_y c) = 5%nat
    /\ List.length (bar_text c) = 5%nat
    /\ bar_y c = [ Float (float_lit 8 9); Float (float_lit 315 11);
                   Float (float_lit 75 17); Float (float_lit 1844674407 10);
                   Float (float_lit 1 24) ]
    /\ Forall2 denotes (bar_y c) comparison_exact_values
    /\ StronglySorted py_less (bar_y c).
Proof.
  intros Hn.
  pose proof (forallb_range _ _ _ narrative_checked n ltac:(lia)) as Hc.
  unfold narrative_check in Hc.
  destruct (update_visualization_stats n) as [s | e] eqn:Hs; [| discriminate].
  destruct (update_visualization_returns cell_zero np_log10 n s Hs)
    as (h & g & c & Hout).
  eexists. exists comparison_expected.
  split; [exact Hout |]. split; [exact create_comparison_chart_ok |].
  do 5 (split; [reflexivity |]). split.
  - unfold comparison_expected, comparison_exact_values. cbn [bar_y].
    repeat (apply Forall2_cons;
            [eapply denotes_intro; vm_compute; reflexivity |]).
    apply Forall2_nil.
  - unfold comparison_expected. cbn [bar_y].
    repeat (apply SSorted_cons;
            [| repeat (apply Forall_cons; [vm_compute; reflexivity |]);
               apply Forall_nil]).
    apply SSorted_nil.
Qed.

Lemma comparison_dataset_fixed_witness :
  1 <= 64 <= 64 /\
  exists out c,
    update_visualization 0%R log10R 64 = Ok out
    /\ create_comparison_chart = Ok c
    /\ vis_comparison out = c
    /\ List.length (bar_y c) = 5%nat.
Proof.
  split; [lia |].
  destruct (comparison_dataset_fixed R 0%R log10R 64 ltac:(lia))
    as (out & c & H1 & H2 & H3 & _ & H5 & _).
  exists out, c. repeat split; assumption.
Defined.

Lemma occurs_iff (p s : string) (b : bool) (P : Prop) :
  contains p s = b -> (b = true <-> P) -> (occurs_in p s <-> P).
Proof. intros Hc Hb. rewrite <- contains_spec, Hc. exact Hb. Qed.

Lemma between_iff (lo hi n : Z) :
  (lo <? n) && (n <=? hi) = true <-> lo < n <= hi.
Proof. rewrite andb_true_iff, Z.ltb_lt, Z.leb_le. reflexivity. Qed.

(** C9: for every square n in [1,64] the summary holds the first context
    paragraph exactly when n <= 10, the second when 10 < n <= 20, the third
    when 20 < n <= 30 and the fourth when n > 30; the literal total
    18,446,744,073,709,551,615 and the block that carries it occur exactly
    when n = 64. *)
Theorem summary_narrative_tiers (cell : Type) (cell_zero : cell)
    (np_log10 : value -> cell) (n : Z) :
  1 <= n <= 64 ->
  exists out,
    update_visualization cell_zero np_log10 n = Ok out
    /\ (occurs_in tier_manageable (vis_stats out) <-> n <= 10)
    /\ (occurs_in tier_significant (vis_stats out) <-> 10 < n <= 20)
    /\ (occurs_in tier_weight (vis_stats out) <-> 20 < n <= 30)
    /\ (occurs_in tier_astronomical (vis_stats out) <-> 30 < n)
    /\ (occurs_in board_total_literal (vis_stats out) <-> n = 64)
    /\ (occurs_in complete_board_block (vis_stats out) <-> n = 64).
Proof.
  intros Hn.
  pose proof (forallb_range _ _ _ narrative_checked n ltac:(lia)) as Hc.
  unfold narrative_check in Hc.
  destruct (update_visualization_stats n) as [s | e] eqn:Hs; [| discriminate].
  destruct (update_visualization_returns cell_zero np_log10 n s Hs)
    as (h & g & c & Hout).
  eexists. split; [exact Hout |]. cbn [vis_stats].
  unfold narrative_matches in Hc.
  repeat (apply andb_prop in Hc; destruct Hc as [Hc ?]).
  repeat match goal with
         | H : Bool.eqb _ _ = true |- _ => apply Bool.eqb_prop in H
         end.
  split; [eapply occurs_iff; [eassumption | apply Z.leb_le] |].
  split; [eapply occurs_iff; [eassumption | apply between_iff] |].
  split; [eapply occurs_iff; [eassumption | apply between_iff] |].
  split; [eapply occurs_iff; [eassumption | apply Z.ltb_lt] |].
  split; eapply occurs_iff; try eassumption; apply Z.eqb_eq.
Qed.

Lemma summary_narrative_tiers_witness :
  1 <= 64 <= 64 /\
  exists out,
    update_visualization 0%R log10R 64 = Ok out
    /\ occurs_in board_total_literal (vis_stats out).
Proof.
  split; [lia |].
  destruct (summary_narrative_tiers R 0%R log10R 64 ltac:(lia))
    as (out & H1 & _ & _ & _ & _ & H6 & _).
  exists out. split; [exact H1 | apply H6; reflexivity].
Defined.

(** ** Indices outside the board *)

Lemma stats_below_board_checked :
  forallb stats_ok (Py.range (-1073) 1) = true.
Proof. vm_compute. reflexivity. Qed.

Lemma stats_above_board_checked :
  forallb stats_ok (Py.range 65 1024) = true.
Proof. vm_compute. reflexivity. Qed.

Lemma stats_ok_engine (n : Z) :
  stats_ok n = true ->
  exists g t, calculate_grains n = Ok g /\ calculate_total n = Ok t.
Proof.
  unfold stats_ok, update_visualization_stats.
  destruct (calculate_grains n) as [g | e]; [| discriminate].
  destruct (calculate_total n) as [t | e]; [| discriminate].
  intros _. eauto.
Qed.

(** C4 (amended): no index is rejected by a range check.  For every integer
    n from -1073 to 0 and from 65 to 1023, the quantity functions return a
    value (the exact powers for n >= 65) and [update_visualization] hands out
    its five outputs without raising. *)
Theorem out_of_range_index_not_rejected (cell : Type) (cell_zero : cell)
    (np_log10 : value -> cell) (n : Z) :
  -1073 <= n <= 0 \/ 65 <= n <= 1023 ->
  (exists g t, calculate_grains n = Ok g /\ calculate_total n = Ok t)
  /\ (65 <= n -> calculate_grains n = Ok (Int (2 ^ (n - 1)))
                 /\ calculate_total n = Ok (Int (2 ^ n - 1)))
  /\ exists out, update_visualization cell_zero np_log10 n = Ok out.
Proof.
  intros Hn.
  assert (Hok : stats_ok n = true).
  { destruct Hn as [Hn | Hn].
    - apply (forallb_range _ _ _ stats_below_board_checked). lia.
    - apply (forallb_range _ _ _ stats_above_board_checked). lia. }
  split; [apply stats_ok_engine, Hok |]. split.
  - intros H65. split; [apply calculate_grains_int | apply calculate_total_int]; lia.
  - destruct (stats_ok_inv n Hok) as [s Hs].
    destruct (update_visualization_returns cell_zero np_log10 n s Hs)
      as (h & g & c & Hout).
    eexists. exact Hout.
Qed.

Lemma out_of_range_index_not_rejected_witness :
  (-1073 <= 65 <= 0 \/ 65 <= 65 <= 1023)
  /\ calculate_grains 65 = Ok (Int (2 ^ (65 - 1)))
  /\ exists out, update_visualization 0%R log10R 65 = Ok out.
Proof.
  split; [right; lia |].
  destruct (out_of_range_index_not_rejected R 0%R log10R 65
              ltac:(right; lia)) as (_ & Hv & Hout).
  split; [apply Hv; lia | exact Hout].
Defined.

(** C4 as stated fails: squares 65 and 0 are outside the board, and the
    quantity functions and the whole update return normally for them. *)
Lemma out_of_range_counterexample :
  calculate_grains 65 = Ok (Int 18446744073709551616)
  /\ calculate_total 65 = Ok (Int 36893488147419103231)
  /\ calculate_grains 0 = Ok (Float (float_lit 5 (-1)))
  /\ calculate_total 0 = Ok (Int 0)
  /\ (exists out, update_visualization 0%R log10R 65 = Ok out)
  /\ (exists out, update_visualization 0%R log10R 0 = Ok out).
Proof.
  do 4 (split; [vm_compute; reflexivity |]).
  split.
  - destruct (stats_ok_inv 65) as [s Hs]; [vm_compute; reflexivity |].
    destruct (update_visualization_returns 0%R log10R 65 s Hs)
      as (h & g & c & Hout).
    eexists. exact Hout.
  - destruct (stats_ok_inv 0) as [s Hs]; [vm_compute; reflexivity |].
    destruct (update_visualization_returns 0%R log10R 0 s Hs)
      as (h & g & c & Hout).
    eexists. exact Hout.
Qed.

(** ** More on the heatmap: hover data, any index, annotations *)

Lemma nth_map_range {A : Type} (f : Z -> A) (lo hi k : Z) (d : A) :
  0 <= k < hi - lo ->
  nth (Z.to_nat k) (map f (Py.range lo hi)) d = f (lo + k).
Proof.
  intros Hk.
  rewrite nth_indep with (d' := f 0) by (rewrite length_map, range_length; lia).
  rewrite map_nth, range_nth by lia. f_equal. lia.
Qed.

Lemma range_NoDup (lo hi : Z) : NoDup (Py.range lo hi).
Proof.
  unfold Py.range. generalize (Z.to_nat (hi - lo)) as n. generalize 0%nat as s.
  intros s n. revert s. induction n as [| n IH]; intros s; cbn [seq map].
  - constructor.
  - constructor; [| apply IH].
    rewrite in_map_iff. intros (i & Heq & Hin). apply in_seq in Hin. lia.
Qed.

Section HeatmapMore.

Variable cell : Type.
Variable cell_zero : cell.
Variable np_log10 : value -> cell.
Variable cell_gt : cell -> Z -> bool.

Let get := get_cell cell cell_zero.
Let shaped := well_shaped cell.

(** What [create_chessboard_heatmap] returns, spelled out. *)
Lemma create_chessboard_heatmap_explicit (cur : Z) :
  create_chessboard_heatmap cell cell_zero np_log10 cur =
  Ok {| heat_z := fold_left (place_row cell np_log10 cur) (Py.range 0 8)
                    (np_zeros_8x8 cell cell_zero);
        heat_customdata := np_array (hover_grid cur) |}.
Proof.
  unfold create_chessboard_heatmap.
  rewrite (foldM_Ok _ (place_row cell np_log10 cur)).
  2:{ intros b i Hi. apply in_range in Hi. unfold place_row.
      apply foldM_Ok. intros b' j Hj. apply in_range in Hj.
      apply heatmap_cell_places; lia. }
  cbn [bind].
  rewrite (mapM_Ok _ (fun i => map (hover_value cur i) (Py.range 0 8))).
  2:{ intros i Hi. apply in_range in Hi. apply mapM_Ok. intros j Hj.
      apply in_range in Hj. unfold customdata_cell, hover_value.
      destruct (_ <=? cur); [apply calculate_grains_int; lia | reflexivity]. }
  reflexivity.
Qed.

Lemma final_board_cell (cur r c : Z) :
  0 <= r < 8 -> 0 <= c < 8 ->
  get (fold_left (place_row cell np_log10 cur) (Py.range 0 8)
         (np_zeros_8x8 cell cell_zero)) r c
  = cell_at cell cell_zero np_log10 cur r c.
Proof.
  intros Hr Hc.
  destruct (place_rows cell cell_zero np_log10 cur (Py.range 0 8)
              (fun i Hi => proj1 (in_range 0 8 i) Hi) _
              (zeros_shaped cell cell_zero)) as [_ Hg].
  unfold get. rewrite Hg by lia.
  assert (Hin : existsb (Z.eqb r) (Py.range 0 8) = true).
  { apply existsb_exists. exists r. split; [apply in_range; lia | apply Z.eqb_refl]. }
  rewrite Hin, zeros_get. reflexivity.
Qed.

Lemma annotate_cell_step (cur i j : Z)
    (st : list (list cell) * list annotation) :
  0 <= i -> 0 <= j ->
  annotate_cell cell cell_zero np_log10 cell_gt cur i st j
  = Ok (annotate_step cell cell_zero np_log10 cell_gt cur i st j).
Proof.
  intros Hi Hj. destruct st as [b anns]. unfold annotate_cell, annotate_step.
  rewrite heatmap_cell_places by assumption. reflexivity.
Qed.

Lemma place_get_here (cur i j : Z) (b : list (list cell)) :
  shaped b -> 0 <= i < 8 -> 0 <= j < 8 -> get b i j = cell_zero ->
  get (place cell np_log10 cur i b j) i j
  = cell_at cell cell_zero np_log10 cur i j.
Proof.
  intros Hb Hi Hj Hz. unfold place, cell_at.
  destruct (i * 8 + j + 1 <=? cur); [| exact Hz].
  unfold get. rewrite get_set_cell by (try assumption; lia).
  now rewrite !Z.eqb_refl.
Qed.

Lemma place_get_other (cur i j r c : Z) (b : list (list cell)) :
  shaped b -> 0 <= i < 8 -> 0 <= j < 8 -> 0 <= r -> 0 <= c ->
  i <> r \/ j <> c ->
  get (place cell np_log10 cur i b j) r c = get b r c.
Proof.
  intros Hb Hi Hj Hr Hc Hne. unfold place.
  destruct (i * 8 + j + 1 <=? cur); [| reflexivity].
  unfold get. rewrite get_set_cell by (try assumption; lia).
  destruct (Z.eqb_spec i r) as [-> | _]; [| reflexivity].
  destruct (Z.eqb_spec j c) as [-> | _]; [| reflexivity].
  destruct Hne; contradiction.
Qed.

Lemma place_shaped (cur i j : Z) (b : list (list cell)) :
  shaped b -> shaped (place cell np_log10 cur i b j).
Proof.
  intros Hb. unfold place.
  destruct (_ <=? cur); [apply set_cell_shaped |]; exact Hb.
Qed.

(** Invariant of the inner loop with annotations: a cell is still zero when
    its turn comes, so the colour is decided on the value the cell keeps. *)
Lemma annotate_columns (cur i : Z) (js : list Z) :
  0 <= i < 8 -> NoDup js -> (forall j, In j js -> 0 <= j < 8) ->
  forall b anns, shaped b -> (forall j, In j js -> get b i j = cell_zero) ->
    fold_left (annotate_step cell cell_zero np_log10 cell_gt cur i) js (b, anns)
    = (fold_left (place cell np_log10 cur i) js b,
       anns ++ map (annotation_at cell cell_zero np_log10 cell_gt cur i) js).
Proof.
  intros Hi Hnd. induction Hnd as [| j js Hnotin Hnd IH]; intros Hjs b anns Hb Hz.
  - cbn. now rewrite app_nil_r.
  - assert (Hj : 0 <= j < 8) by (apply Hjs; left; reflexivity).
    cbn [fold_left map]. unfold annotate_step at 2. cbn [fst snd].
    rewrite place_get_here by (try assumption; apply Hz; left; reflexivity).
    rewrite IH.
    + rewrite <- app_assoc. reflexivity.
    + intros x Hx. apply Hjs. right; exact Hx.
    + apply place_shaped, Hb.
    + intros x Hx.
      assert (Hx8 : 0 <= x < 8) by (apply Hjs; right; exact Hx).
      fold get. rewrite place_get_other; try assumption; try lia.
      * apply Hz. right; exact Hx.
      * right. intros ->. contradiction.
Qed.

Lemma annotate_rows (cur : Z) (rows : list Z) :
  NoDup rows -> (forall i, In i rows -> 0 <= i < 8) ->
  forall b anns, shaped b ->
    (forall i j, In i rows -> 0 <= j < 8 -> get b i j = cell_zero) ->
    fold_left
      (fun st i =>
         fold_left (annotate_step cell cell_zero np_log10 cell_gt cur i)
                   (Py.range 0 8) st) rows (b, anns)
    = (fold_left (place_row cell np_log10 cur) rows b,
       anns ++ flat_map
                 (fun i => map (annotation_at cell cell_zero np_log10 cell_gt cur i)
                               (Py.range 0 8)) rows).
Proof.
  intros Hnd. induction Hnd as [| i rows Hnotin Hnd IH]; intros Hrows b anns Hb Hz.
  - cbn. now rewrite app_nil_r.
  - assert (Hi : 0 <= i < 8) by (apply Hrows; left; reflexivity).
    cbn [fold_left flat_map].
    rewrite annotate_columns; try assumption.
    + destruct (place_columns cell cell_zero np_log10 cur i (Py.range 0 8) Hi
                  (fun j Hj => proj1 (in_range 0 8 j) Hj) b Hb) as [Hs Hg].
      fold (place_row cell np_log10 cur b i). rewrite IH.
      * rewrite <- app_assoc. reflexivity.
      * intros x Hx. apply Hrows. right; exact Hx.
      * exact Hs.
      * intros r c Hr Hc.
        assert (Hr8 : 0 <= r < 8) by (apply Hrows; right; exact Hr).
        unfold place_row. fold get in Hg. rewrite Hg by lia.
        destruct (Z.eqb_spec i r) as [-> | _]; [contradiction |].
        cbn [andb]. apply Hz; [right; exact Hr | exact Hc].
    + apply range_NoDup.
    + intros j Hj. apply in_range in Hj. exact Hj.
    + intros j Hj. apply in_range in Hj. apply Hz; [left; reflexivity | exact Hj].
Qed.

(** The annotated loops never raise; they leave the board of
    [create_chessboard_heatmap] and one annotation for each cell, row by
    row. *)
Lemma create_chessboard_heatmap_annotations_explicit (cur : Z) :
  create_chessboard_heatmap_annotations cell cell_zero np_log10 cell_gt cur
  = Ok (fold_left (place_row cell np_log10 cur) (Py.range 0 8)
          (np_zeros_8x8 cell cell_zero),
        flat_map (fun i => map (annotation_at cell cell_zero np_log10 cell_gt cur i)
                               (Py.range 0 8)) (Py.range 0 8)).
Proof.
  unfold create_chessboard_heatmap_annotations.
  rewrite (foldM_Ok _
             (fun st i =>
                fold_left (annotate_step cell cell_zero np_log10 cell_gt cur i)
                          (Py.range 0 8) st)).
  2:{ intros st i Hi. apply in_range in Hi. apply foldM_Ok.
      intros st' j Hj. apply in_range in Hj.
      apply annotate_cell_step; lia. }
  rewrite annotate_rows.
  - reflexivity.
  - apply range_NoDup.
  - intros i Hi. apply in_range in Hi. exact Hi.
  - apply zeros_shaped.
  - intros i j _ _. apply zeros_get.
Qed.

End HeatmapMore.

Lemma square_of_index (k : Z) :
  0 <= k < 64 ->
  0 <= k / 8 < 8 /\ 0 <= k mod 8 < 8 /\ k / 8 * 8 + k mod 8 + 1 = k + 1.
Proof.
  intros Hk. pose proof (Z.mod_pos_bound k 8 ltac:(lia)) as Hm.
  pose proof (Z.div_mod k 8 ltac:(lia)) as Hd.
  assert (0 <= k / 8) by (apply Z.div_pos; lia).
  assert (k / 8 < 8) by (apply Z.div_lt_upper_bound; lia).
  lia.
Qed.

Lemma fold_promote_int64 (vs : list value) :
  Forall (fun v => dtype_of v = dt_int64) vs ->
  fold_left (fun d x => promote d (dtype_of x)) vs dt_int64 = dt_int64.
Proof.
  induction 1 as [| v vs Hv _ IH]; [reflexivity |].
  cbn [fold_left]. rewrite Hv. exact IH.
Qed.

Lemma common_dtype_int64 (vs : list value) (v0 : value) :
  In v0 vs -> Forall (fun v => dtype_of v = dt_int64) vs ->
  common_dtype vs = dt_int64.
Proof.
  intros Hin Hall. destruct vs as [| v vs]; [contradiction |].
  inversion Hall as [| ? ? Hv Hvs]; subst.
  cbn [common_dtype]. rewrite Hv. apply fold_promote_int64, Hvs.
Qed.

Lemma hover_value_int64 (cur i j : Z) :
  cur <= 63 -> 0 <= i -> 0 <= j ->
  dtype_of (hover_value cur i j) = dt_int64.
Proof.
  intros Hcur Hi Hj. unfold hover_value.
  destruct (Z.leb_spec (i * 8 + j + 1) cur) as [Hle | _]; [| reflexivity].
  unfold dtype_of.
  assert (Hlt : 2 ^ (i * 8 + j + 1 - 1) < 2 ^ 63)
    by (apply Z.pow_lt_mono_r; lia).
  assert (Hpos : 0 < 2 ^ (i * 8 + j + 1 - 1))
    by (apply Z.pow_pos_nonneg; lia).
  replace (- 2 ^ 63 <=? 2 ^ (i * 8 + j + 1 - 1)) with true
    by (symmetry; apply Z.leb_le; change (2 ^ 63) with 9223372036854775808; lia).
  replace (2 ^ (i * 8 + j + 1 - 1) <? 2 ^ 63) with true
    by (symmetry; apply Z.ltb_lt; exact Hlt).
  reflexivity.
Qed.

(** Up to index 63 every hover value fits int64 and the array keeps the
    integers; from index 64 on the value [2^63] of square 64 fits uint64
    only, and the array is float64. *)
Lemma hover_dtype (cur : Z) :
  (cur <= 63 -> common_dtype (List.concat (hover_grid cur)) = dt_int64)
  /\ (64 <= cur -> common_dtype (List.concat (hover_grid cur)) = dt_float64).
Proof.
  split.
  - intros Hcur. apply common_dtype_int64 with (v0 := hover_value cur 0 0).
    + apply in_concat. exists (map (hover_value cur 0) (Py.range 0 8)).
      split.
      * unfold hover_grid.
        apply (in_map (fun i => map (hover_value cur i) (Py.range 0 8))).
        apply in_range. lia.
      * apply in_map. apply in_range. lia.
    + apply Forall_forall. intros v Hv. apply in_concat in Hv.
      destruct Hv as (row & Hrow & Hv). unfold hover_grid in Hrow.
      apply in_map_iff in Hrow. destruct Hrow as (i & <- & Hi).
      apply in_map_iff in Hv. destruct Hv as (j & <- & Hj).
      apply in_range in Hi. apply in_range in Hj.
      apply hover_value_int64; lia.
  - intros Hcur.
    assert (E : hover_grid cur = hover_grid 64).
    { unfold hover_grid. apply map_ext_in. intros i Hi. apply map_ext_in.
      intros j Hj. apply in_range in Hi. apply in_range in Hj.
      unfold hover_value.
      destruct (Z.leb_spec (i * 8 + j + 1) cur); [| lia].
      destruct (Z.leb_spec (i * 8 + j + 1) 64); [reflexivity | lia]. }
    rewrite E. vm_compute. reflexivity.
Qed.

Lemma np_array_hover_nth (cur i j : Z) :
  0 <= i < 8 -> 0 <= j < 8 ->
  nth (Z.to_nat j) (nth (Z.to_nat i) (np_array (hover_grid cur)) []) (Int 0)
  = cast (common_dtype (List.concat (hover_grid cur))) (hover_value cur i j).
Proof.
  intros Hi Hj. unfold np_array.
  set (d := common_dtype (List.concat (hover_grid cur))).
  unfold hover_grid. rewrite map_map.
  rewrite (nth_map_range _ 0 8 i) by lia. rewrite map_map.
  rewrite (nth_map_range _ 0 8 j) by lia.
  rewrite !Z.add_0_l. reflexivity.
Qed.

Lemma powers_convert_checked :
  forallb power_converts_exactly (Py.range 0 64) = true.
Proof. vm_compute. reflexivity. Qed.

(** X1: for every selected index, also off the board, the heatmap is built
    without an error.  The hover value of a cell is the grains of its square
    when the square is reached and the integer 0 otherwise; up to index 63
    the array holds these integers themselves, and from index 64 on (where
    [2^63] no longer fits int64) it is a float64 array whose entries are the
    same numbers as doubles, without loss.  The colour value of a reached
    cell is the logarithm of its grains plus one, its grains are the point
    of the growth chart for that square, and a cell beyond the index keeps
    the initial zero. *)
Theorem heatmap_hover_data (cell : Type) (cell_zero : cell)
    (np_log10 : value -> cell) (cur i j : Z) :
  0 <= i < 8 -> 0 <= j < 8 ->
  exists h g hover,
    create_chessboard_heatmap cell cell_zero np_log10 cur = Ok h
    /\ create_exponential_growth_chart cur = Ok g
    /\ nth (Z.to_nat j) (nth (Z.to_nat i) (heat_customdata h) []) (Int 0) = hover
    /\ (i * 8 + j + 1 <= cur ->
          exists grains,
            calculate_grains (i * 8 + j + 1) = Ok (Int grains)
            /\ denotes hover grains
            /\ (cur <= 63 -> hover = Int grains)
            /\ (64 <= cur -> exists f, float_of_int grains = Ok f
                                     /\ hover = Float f)
            /\ get_cell cell cell_zero (heat_z h) i j
               = np_log10 (Int (grains + 1))
            /\ nth (Z.to_nat (i * 8 + j + 1 - 1)) (trace_y g) (Int 0)
               = Int grains)
    /\ (cur < i * 8 + j + 1 ->
          hover = Int 0
          /\ get_cell cell cell_zero (heat_z h) i j = cell_zero).
Proof.
  intros Hi Hj. eexists. eexists. eexists.
  split; [apply create_chessboard_heatmap_explicit |].
  split; [apply create_exponential_growth_chart_ok |].
  cbn [heat_customdata heat_z trace_y].
  split; [reflexivity |].
  rewrite np_array_hover_nth, final_board_cell by assumption.
  unfold cell_at, log_of_square, hover_value.
  destruct (hover_dtype cur) as [Hint Hfloat].
  destruct (Z.leb_spec (i * 8 + j + 1) cur) as [Hle | Hgt].
  - split; [| intros; lia]. intros _.
    set (k := i * 8 + j + 1 - 1).
    exists (2 ^ k).
    split; [apply calculate_grains_int; lia |].
    pose proof (forallb_range _ _ _ powers_convert_checked k ltac:(lia)) as Hp.
    unfold power_converts_exactly in Hp.
    destruct (float_of_int (2 ^ k)) as [f | ?] eqn:Hf; [| discriminate].
    destruct (float_value f) as [q |] eqn:Hq; [| discriminate].
    apply Qeq_bool_eq in Hp.
    assert (Hcast : 64 <= cur ->
              cast (common_dtype (List.concat (hover_grid cur))) (Int (2 ^ k))
              = Float f).
    { intros H64. rewrite Hfloat by exact H64. cbn [cast to_float].
      now rewrite Hf. }
    assert (Hkeep : cur <= 63 ->
              cast (common_dtype (List.concat (hover_grid cur))) (Int (2 ^ k))
              = Int (2 ^ k)).
    { intros H63. rewrite Hint by exact H63. reflexivity. }
    split.
    { destruct (Z.le_gt_cases cur 63) as [H63 | H64].
      - rewrite Hkeep by exact H63. exists (inject_Z (2 ^ k)).
        split; reflexivity.
      - rewrite Hcast by lia. exists q. split; assumption. }
    split; [exact Hkeep |].
    split; [intros H64; exists f; split; [reflexivity | apply Hcast, H64] |].
    split; [reflexivity |].
    rewrite (nth_map_range _ 1 (Z.min cur 64 + 1)) by lia.
    do 2 f_equal. lia.
  - split; [intros; lia |]. intros _. split; [| reflexivity].
    rewrite Hint by lia. reflexivity.
Qed.

Lemma heatmap_hover_data_witness :
  0 <= 2 < 8 /\ 0 <= 3 < 8 /\
  exists h hover grains,
    create_chessboard_heatmap R 0%R log10R 70 = Ok h
    /\ nth (Z.to_nat 3) (nth (Z.to_nat 2) (heat_customdata h) []) (Int 0) = hover
    /\ calculate_grains (2 * 8 + 3 + 1) = Ok (Int grains)
    /\ denotes hover grains
    /\ exists f, hover = Float f.
Proof.
  split; [lia |]. split; [lia |].
  destruct (heatmap_hover_data R 0%R log10R 70 2 3 ltac:(lia) ltac:(lia))
    as (h & g & hover & Hh & Hg & Hn & Hreach & _).
  destruct (Hreach ltac:(lia)) as (grains & Hgr & Hden & _ & Hfl & _).
  exists h, hover, grains. do 4 (split; [assumption |]).
  destruct (Hfl ltac:(lia)) as (f & _ & Hf). exists f. exact Hf.
Defined.

Lemma annotation_nth (cell : Type) (cell_zero : cell)
    (np_log10 : value -> cell) (cell_gt : cell -> Z -> bool)
    (cur k : Z) (d : annotation) :
  0 <= k < 64 ->
  nth (Z.to_nat k)
    (flat_map (fun i => map (annotation_at cell cell_zero np_log10 cell_gt cur i)
                            (Py.range 0 8)) (Py.range 0 8)) d
  = annotation_at cell cell_zero np_log10 cell_gt cur (k / 8) (k mod 8).
Proof.
  intros Hk. replace k with (Z.of_nat (Z.to_nat k)) at 2 3 by lia.
  assert (Hn : (Z.to_nat k < 64)%nat) by lia.
  revert Hn. generalize (Z.to_nat k) as n. clear. intros n Hn.
  do 64 (destruct n as [| n]; [reflexivity |]). lia.
Qed.

(** X2: whatever the selected index, the loops leave 64 annotations in
    row-major order next to the board of [create_chessboard_heatmap]:
    annotation k sits at column [k mod 8], row [k / 8], shows the square
    number [k + 1], and is white exactly when the final value of its cell
    exceeds 5 (the cell is written, if at all, before its annotation is
    made, and never again). *)
Theorem heatmap_annotations_layout (cell : Type) (cell_zero : cell)
    (np_log10 : value -> cell) (cell_gt : cell -> Z -> bool)
    (cur k : Z) (d : annotation) :
  0 <= k < 64 ->
  exists b anns h,
    create_chessboard_heatmap_annotations cell cell_zero np_log10 cell_gt cur
    = Ok (b, anns)
    /\ create_chessboard_heatmap cell cell_zero np_log10 cur = Ok h
    /\ heat_z h = b
    /\ List.length anns = 64%nat
    /\ ann_x (nth (Z.to_nat k) anns d) = k mod 8
    /\ ann_y (nth (Z.to_nat k) anns d) = k / 8
    /\ ann_text (nth (Z.to_nat k) anns d) = str (k + 1)
    /\ ann_color (nth (Z.to_nat k) anns d)
       = if cell_gt (get_cell cell cell_zero b (k / 8) (k mod 8)) 5
         then white else black.
Proof.
  intros Hk. eexists. eexists. eexists.
  split; [apply create_chessboard_heatmap_annotations_explicit |].
  split; [apply create_chessboard_heatmap_explicit |].
  split; [reflexivity |]. split; [reflexivity |].
  destruct (square_of_index k Hk) as (Hr & Hc & Hsq).
  rewrite annotation_nth by exact Hk.
  cbn [annotation_at ann_x ann_y ann_text ann_color].
  rewrite Hsq, final_board_cell by assumption. repeat split.
Qed.

Lemma heatmap_annotations_layout_witness :
  0 <= 17 < 64 /\
  exists b anns,
    create_chessboard_heatmap_annotations R 0%R log10R gtR 20 = Ok (b, anns)
    /\ ann_text (nth (Z.to_nat 17) anns
                   {| ann_x := 0; ann_y := 0; ann_text := ""; ann_color := black |})
       = str (17 + 1).
Proof.
  split; [lia |].
  destruct (heatmap_annotations_layout R 0%R log10R gtR 20 17
              {| ann_x := 0; ann_y := 0; ann_text := ""; ann_color := black |}
              ltac:(lia))
    as (b & anns & h & Ha & _ & _ & _ & _ & _ & Ht & _).
  exists b, anns. split; assumption.
Defined.

Lemma ln_10_pos : (0 < ln 10)%R.
Proof. rewrite <- ln_1. apply ln_increasing; lra. Qed.

(** The logarithm of an integer exceeds 5 exactly above one hundred
    thousand. *)
Lemma log10R_above_5 (z : Z) :
  1 <= z -> (5 < log10R (Int z))%R <-> 100000 < z.
Proof.
  intros Hz. unfold log10R.
  assert (Hz0 : (0 < IZR z)%R) by (apply IZR_lt; lia).
  assert (E : (5 * ln 10 = ln 100000)%R).
  { replace 100000%R with (10 ^ 5)%R by lra.
    rewrite ln_pow by lra. simpl INR. lra. }
  pose proof ln_10_pos as H10.
  split.
  - intros H. apply lt_IZR. apply ln_lt_inv; [lra | exact Hz0 |].
    rewrite <- E. apply Rmult_lt_reg_r with (r := (/ ln 10)%R).
    + apply Rinv_0_lt_compat, H10.
    + rewrite Rmult_assoc, Rinv_r by lra. rewrite Rmult_1_r. exact H.
  - intros H. apply IZR_lt in H.
    assert (Hln : (ln 100000 < ln (IZR z))%R) by (apply ln_increasing; lra).
    rewrite <- E in Hln.
    apply Rmult_lt_reg_r with (r := ln 10); [exact H10 |].
    unfold Rdiv. rewrite Rmult_assoc, Rinv_l by lra. rewrite Rmult_1_r.
    exact Hln.
Qed.

Lemma grains_above_100000 (sq : Z) :
  1 <= sq -> 100000 < 2 ^ (sq - 1) + 1 <-> 18 <= sq.
Proof.
  intros Hsq. split.
  - intros H. destruct (Z.le_gt_cases 18 sq) as [? | Hlt]; [assumption |].
    assert (2 ^ (sq - 1) <= 2 ^ 16) by (apply Z.pow_le_mono_r; lia).
    change (2 ^ 16) with 65536 in *. lia.
  - intros H. assert (2 ^ 17 <= 2 ^ (sq - 1)) by (apply Z.pow_le_mono_r; lia).
    change (2 ^ 17) with 131072 in *. lia.
Qed.

(** X3: with the logarithm read over the reals, the annotation of a square
    is white exactly when the square is reached and is square 18 or later
    (from [2^17 + 1] grains-plus-one on, the logarithm is above 5); the
    squares 1 to 17 and every unreached square are annotated in black. *)
Theorem annotation_white_from_square_18 (cur k : Z) (d : annotation) :
  0 <= k < 64 ->
  exists b anns,
    create_chessboard_heatmap_annotations R 0%R log10R gtR cur = Ok (b, anns)
    /\ (ann_color (nth (Z.to_nat k) anns d) = white <-> 18 <= k + 1 <= cur)
    /\ (ann_color (nth (Z.to_nat k) anns d) = black
        <-> k + 1 < 18 \/ cur < k + 1).
Proof.
  intros Hk. eexists. eexists.
  split; [apply create_chessboard_heatmap_annotations_explicit |].
  destruct (square_of_index k Hk) as (Hr & Hc & Hsq).
  rewrite annotation_nth by exact Hk. cbn [annotation_at ann_color].
  unfold cell_at, log_of_square, gtR. rewrite Hsq.
  destruct (Z.leb_spec (k + 1) cur) as [Hle | Hgt].
  - destruct (Rlt_dec 5 (log10R (Int (2 ^ (k + 1 - 1) + 1)))) as [H5 | H5].
    + apply log10R_above_5 in H5;
        [| pose proof (Z.pow_pos_nonneg 2 (k + 1 - 1) ltac:(lia) ltac:(lia)); lia].
      apply grains_above_100000 in H5; [| lia].
      split; split; try discriminate; intros; try reflexivity; lia.
    + assert (Hlt : ~ 18 <= k + 1).
      { intros H18. apply H5. apply log10R_above_5;
          [pose proof (Z.pow_pos_nonneg 2 (k + 1 - 1) ltac:(lia) ltac:(lia)); lia |].
        apply grains_above_100000; lia. }
      split; split; try discriminate; intros; try reflexivity; lia.
  - destruct (Rlt_dec 5 0) as [H5 | _]; [lra |].
    split; split; try discriminate; intros; try reflexivity; lia.
Qed.

Lemma annotation_white_from_square_18_witness :
  0 <= 17 < 64 /\
  exists b anns,
    create_chessboard_heatmap_annotations R 0%R log10R gtR 20 = Ok (b, anns)
    /\ ann_color (nth (Z.to_nat 17) anns
                    {| ann_x := 0; ann_y := 0; ann_text := ""; ann_color := black |})
       = white.
Proof.
  split; [lia |].
  destruct (annotation_white_from_square_18 20 17
              {| ann_x := 0; ann_y := 0; ann_text := ""; ann_color := black |}
              ltac:(lia))
    as (b & anns & Ha & Hw & _).
  exists b, anns. split; [exact Ha |]. apply Hw. lia.
Defined.

(** ** More on the series: the highlighted point, empty series *)

Lemma range_empty (lo hi : Z) : hi <= lo -> Py.range lo hi = [].
Proof.
  intros H. unfold Py.range. replace (Z.to_nat (hi - lo)) with 0%nat by lia.
  reflexivity.
Qed.

(** X4: for every index n >= 2 both charts get a highlighted point; its
    x-coordinate is n itself and its y-coordinate is the last point of the
    series, that is the value of square [min n 64].  The marker therefore
    lies on the curve exactly when n <= 64: beyond the board it is drawn at
    x = n with the value of square 64. *)
Theorem highlight_marks_last_point (n : Z) :
  2 <= n ->
  exists g c yg yc,
    create_exponential_growth_chart n = Ok g
    /\ create_cumulative_chart n = Ok c
    /\ highlight g = Some (n, yg) /\ highlight c = Some (n, yc)
    /\ last_item (trace_y g) = Ok yg /\ last_item (trace_y c) = Ok yc
    /\ calculate_grains (Z.min n 64) = Ok yg
    /\ calculate_total (Z.min n 64) = Ok yc
    /\ last_item (trace_x g) = Ok (Z.min n 64)
    /\ last_item (trace_x c) = Ok (Z.min n 64)
    /\ (In n (trace_x g) <-> n <= 64)
    /\ (In n (trace_x c) <-> n <= 64).
Proof.
  intros Hn. set (L := Z.min n 64).
  assert (HL : 1 <= L) by (unfold L; lia).
  eexists. eexists. exists (Int (2 ^ (L - 1))), (Int (2 ^ L - 1)).
  split; [apply create_exponential_growth_chart_ok |].
  split; [apply create_cumulative_chart_ok |].
  cbn [highlight trace_x trace_y]. fold L.
  destruct (Z.ltb_spec 1 n) as [_ | ?]; [| lia].
  do 2 (split; [reflexivity |]).
  split; [apply (last_of_mapped_range (fun s => Int (2 ^ (s - 1)))); exact HL |].
  split; [apply (last_of_mapped_range (fun s => Int (2 ^ s - 1))); exact HL |].
  split; [apply calculate_grains_int; exact HL |].
  split; [apply calculate_total_int; lia |].
  assert (Hlast : last_item (Py.range 1 (L + 1)) = Ok L).
  { rewrite range_snoc by exact HL. apply last_item_snoc. }
  do 2 (split; [exact Hlast |]).
  rewrite in_range. unfold L. split; split; intros; lia.
Qed.

Lemma highlight_marks_last_point_witness :
  2 <= 70 /\
  exists g yg,
    create_exponential_growth_chart 70 = Ok g
    /\ highlight g = Some (70, yg)
    /\ calculate_grains (Z.min 70 64) = Ok yg
    /\ ~ In 70 (trace_x g).
Proof.
  split; [lia |].
  destruct (highlight_marks_last_point 70 ltac:(lia))
    as (g & c & yg & yc & Hg & _ & Hh & _ & _ & _ & Hv & _ & _ & _ & Hin & _).
  exists g, yg. repeat split; try assumption.
  intros H. apply Hin in H. lia.
Defined.

(** X5: for an index n <= 1 no point is highlighted, and the guard on the
    highlight keeps [grains[-1]] from ever running on an empty list; for
    n <= 0 both series are empty and the charts are still built. *)
Theorem no_highlight_at_or_below_one (n : Z) :
  n <= 1 ->
  exists g c,
    create_exponential_growth_chart n = Ok g
    /\ create_cumulative_chart n = Ok c
    /\ highlight g = None /\ highlight c = None
    /\ (n <= 0 -> trace_x g = [] /\ trace_y g = []
                  /\ trace_x c = [] /\ trace_y c = []
                  /\ last_item (trace_y g) = Raise IndexError)
    /\ (n = 1 -> trace_x g = [1] /\ trace_y g = [Int 1]
                 /\ trace_x c = [1] /\ trace_y c = [Int 1]).
Proof.
  intros Hn. eexists. eexists.
  split; [apply create_exponential_growth_chart_ok |].
  split; [apply create_cumulative_chart_ok |].
  cbn [highlight trace_x trace_y].
  destruct (Z.ltb_spec 1 n) as [? | _]; [lia |].
  do 2 (split; [reflexivity |]). split.
  - intros H0. rewrite range_empty by lia. repeat split.
  - intros ->. repeat split.
Qed.

Lemma no_highlight_at_or_below_one_witness :
  0 <= 1 /\
  exists g, create_exponential_growth_chart 0 = Ok g
         /\ highlight g = None /\ trace_y g = [].
Proof.
  split; [lia |].
  destruct (no_highlight_at_or_below_one 0 ltac:(lia))
    as (g & c & Hg & _ & Hh & _ & H0 & _).
  exists g. split; [exact Hg |]. split; [exact Hh |].
  destruct (H0 ltac:(lia)) as (_ & Hy & _). exact Hy.
Defined.

(** ** More on the formatter: signs, errors, reading back, suffix by square *)

Lemma binary_round_small (sx : bool) (p : positive) :
  Z.pos p < 9007199254740992 ->
  exists m e, binary_round prec emax sx p 0 = S754_finite sx m e
           /\ e <= 0 /\ Z.pos m = Z.pos p * 2 ^ (- e).
Proof.
  intros Hz.
  pose proof (digits2_pos_bounds p) as [Hlo Hhi].
  set (d := Z.pos (digits2_pos p)) in *.
  assert (Hd : d <= 53).
  { assert (Hlt : 2 ^ (d - 1) < 2 ^ 53)
      by (change (2 ^ 53) with 9007199254740992; lia).
    apply Z.pow_lt_mono_r_iff in Hlt; lia. }
  assert (Hfexp : fexp prec emax (d + 0) = d - 53).
  { unfold fexp, emin, prec, emax. lia. }
  unfold binary_round. fold d. rewrite Hfexp. unfold shl_align.
  destruct (d - 53 - 0) as [| k | k] eqn:Hk; try lia.
  - rewrite binary_round_aux_canonical.
    + exists p, 0. split; [reflexivity |]. split; [lia |].
      rewrite Z.pow_0_r. lia.
    + fold d. unfold fexp, emin, prec, emax. lia.
    + lia.
  - rewrite binary_round_aux_canonical.
    + exists (Pos.iter xO p k), (d - 53). split; [reflexivity |].
      split; [lia |]. rewrite iter_xO_value. f_equal. f_equal. lia.
    + rewrite iter_xO_digits. fold d. unfold fexp, emin, prec, emax. lia.
    + lia.
Qed.

Lemma int_below_1e6 (z : Z) : z < 1000000 -> Py.lt (Int z) lit_1e6 = true.
Proof.
  intros Hz. unfold lit_1e6. rewrite literal_1e6. cbn [Py.lt int_lt_float].
  change (0 <=? -33) with false. cbv iota.
  change (2 ^ (- -33)) with 8589934592. apply Z.ltb_lt. lia.
Qed.

Lemma format_number_small_int (z : Z) :
  0 <= z < 1000000 -> format_number (Int z) = Ok (group_thousands (str z)).
Proof.
  intros Hz. unfold format_number. rewrite int_below_1e6 by lia.
  apply format_small_int, Hz.
Qed.

Lemma format_number_negative_int (p : positive) :
  Z.pos p < 9007199254740992 ->
  format_number (Int (Z.neg p))
  = Ok ("-" ++ group_thousands (str (Z.pos p)))%string.
Proof.
  intros Hp. unfold format_number.
  rewrite int_below_1e6 by lia.
  unfold format_f. cbn [to_float]. unfold float_of_int. cbn [binary_normalize].
  destruct (binary_round_small true p Hp) as (m & e & Hf & He & Hm).
  rewrite Hf. cbn [bind format_float sign_prefix].
  unfold render_fixed, scaled_digits.
  change (10 ^ Z.of_nat 0) with 1. rewrite Z.mul_1_r, Hm.
  destruct (Z.leb_spec 0 e) as [He0 | He0].
  - replace e with 0 by lia. rewrite Z.pow_0_r, !Z.mul_1_r, Z.div_1_r.
    reflexivity.
  - rewrite round_half_even_div_exact by (apply Z.pow_pos_nonneg; lia).
    rewrite Z.div_1_r. reflexivity.
Qed.

Lemma negative_below_1e6 (v : value) :
  negative v -> Py.lt v lit_1e6 = true.
Proof.
  destruct v as [z | [[|] | [|] | | [|] m e]]; cbn [negative];
    try contradiction; intros H.
  - apply int_below_1e6. lia.
  - unfold lit_1e6. rewrite literal_1e6. reflexivity.
  - unfold lit_1e6. rewrite literal_1e6. reflexivity.
  - unfold lit_1e6. rewrite literal_1e6. reflexivity.
Qed.

(** X6: a negative number never gets a magnitude suffix, however large: the
    first test [num < 1e6] holds for it, so it is printed with no decimals
    and grouped thousands behind a minus sign; a negative [int] above
    [-2^53] is printed digit for digit. *)
Theorem negative_input_no_suffix (v : value) :
  negative v ->
  format_number v = format_f true 0 v
  /\ (forall z, v = Int z -> -9007199254740992 < z ->
        format_number v = Ok ("-" ++ group_thousands (str (- z)))%string)
  /\ (forall f, v = Float f ->
        exists s, format_number v = Ok (String "-"%char s)).
Proof.
  intros Hv. split; [| split].
  - unfold format_number. now rewrite negative_below_1e6.
  - intros z -> Hz. cbn in Hv. destruct z as [| p | p]; try lia.
    apply format_number_negative_int. lia.
  - intros f ->. unfold format_number. rewrite negative_below_1e6 by exact Hv.
    destruct f as [[|] | [|] | | [|] m e]; cbn in Hv; try contradiction;
      eexists; reflexivity.
Qed.

Lemma negative_input_no_suffix_witness :
  negative (Int (-5000000000))
  /\ format_number (Int (-5000000000))
     = Ok ("-" ++ group_thousands (str (- -5000000000)))%string.
Proof.
  split; [cbn; lia |].
  assert (Hv : negative (Int (-5000000000))) by (cbn; lia).
  destruct (negative_input_no_suffix (Int (-5000000000)) Hv) as (_ & Hz & _).
  apply Hz; [reflexivity | lia].
Defined.

(** X7: [format_number] raises nothing but [OverflowError], and that only
    for an [int] too large to convert to a float; it returns a string for
    every float, the not-a-number and the infinities included (they fall
    through every test: "nanQ", "infQ"; minus infinity takes the first
    branch: "-inf"). *)
Theorem format_number_raises_only_overflow (v : value) :
  (forall f, to_float v = Ok f -> exists s, format_number v = Ok s)
  /\ (forall e, to_float v = Raise e ->
        e = OverflowError /\ format_number v = Raise OverflowError
        /\ exists z, v = Int z)
  /\ (forall f, v = Float f -> exists s, format_number v = Ok s)
  /\ format_number (Float S754_nan) = Ok "nanQ"%string
  /\ format_number (Float (S754_infinity false)) = Ok "infQ"%string
  /\ format_number (Float (S754_infinity true)) = Ok "-inf"%string.
Proof.
  assert (Hok : forall f, to_float v = Ok f -> exists s, format_number v = Ok s).
  { intros f Hf. unfold format_number, lit_1e6, lit_1e9, lit_1e12, lit_1e15.
    repeat match goal with
           | |- context [if Py.lt v ?l then _ else _] => destruct (Py.lt v l)
           end;
      first [ rewrite (format_f_float _ _ _ _ Hf); eauto
            | erewrite scaled_with_suffix_ok;
              [eauto | exact Hf | reflexivity] ]. }
  split; [exact Hok |]. split.
  - intros e He. destruct v as [z | f]; [| discriminate He].
    assert (Hov : e = OverflowError).
    { cbn in He. unfold float_of_int in He.
      destruct (binary_normalize prec emax z 0 false); congruence. }
    subst e. split; [reflexivity |]. split; [| eauto].
    unfold format_number, format_f, scaled_with_suffix, truediv.
    rewrite He. cbn [bind].
    repeat match goal with |- context [if ?b then _ else _] => destruct b end;
      reflexivity.
  - split; [intros f ->; apply (Hok f); reflexivity |].
    repeat split; vm_compute; reflexivity.
Qed.

(** *** Reading a plain rendering back *)

Lemma filter_group_rev (f : ascii -> bool) (l : list ascii) :
  f ","%char = false -> filter f (group_rev l) = filter f l.
Proof.
  intros Hc.
  assert (H : forall n l, (List.length l <= n)%nat ->
                          filter f (group_rev l) = filter f l).
  { clear l. induction n as [| n IH]; intros l Hl.
    - destruct l; [reflexivity | cbn in Hl; lia].
    - destruct l as [| a [| b [| c [| d rest]]]]; try reflexivity.
      change (group_rev (a :: b :: c :: d :: rest))
        with ([a; b; c] ++ [","%char] ++ group_rev (d :: rest)).
      change (a :: b :: c :: d :: rest) with ([a; b; c] ++ d :: rest).
      rewrite !filter_app, (IH (d :: rest)) by (cbn in Hl |- *; lia).
      cbn [filter]. rewrite Hc. reflexivity. }
  apply (H (List.length l)). lia.
Qed.

Lemma strip_commas_group (s : string) :
  strip_commas (group_thousands s) = strip_commas s.
Proof.
  unfold strip_commas, group_thousands.
  rewrite list_ascii_of_string_of_list_ascii.
  rewrite filter_rev, filter_group_rev by reflexivity.
  rewrite filter_rev, rev_involutive. reflexivity.
Qed.

Lemma filter_all {A : Type} (f : A -> bool) (l : list A) :
  forallb f l = true -> filter f l = l.
Proof.
  induction l as [| a l IH]; cbn; [reflexivity |].
  intros H. apply andb_prop in H. destruct H as [Ha Hl].
  rewrite Ha, IH by exact Hl. reflexivity.
Qed.

Lemma digits_have_no_comma (d : Decimal.uint) :
  forallb (fun c => negb (Ascii.eqb c ","%char))
    (list_ascii_of_string (NilEmpty.string_of_uint d)) = true.
Proof. induction d; cbn; try rewrite IHd; reflexivity. Qed.

Lemma strip_commas_str (z : Z) : strip_commas (str z) = str z.
Proof.
  unfold strip_commas.
  assert (H : forall d, filter (fun c => negb (Ascii.eqb c ","%char))
                          (list_ascii_of_string (NilZero.string_of_uint d))
                        = list_ascii_of_string (NilZero.string_of_uint d)).
  { intros d. apply filter_all. destruct d; try reflexivity;
      apply (digits_have_no_comma (_ d)). }
  unfold str. destruct (Z.to_int z) as [d | d]; cbn [NilZero.string_of_int].
  - rewrite H. apply string_of_list_ascii_of_string.
  - cbn [list_ascii_of_string filter]. cbn [Ascii.eqb Bool.eqb negb andb].
    rewrite H. cbn [string_of_list_ascii].
    now rewrite string_of_list_ascii_of_string.
Qed.

Lemma parse_int_str (z : Z) : parse_int (str z) = Some z.
Proof.
  unfold parse_int, str. rewrite NilZero.isi.
  - cbn [option_map]. now rewrite DecimalZ.of_to.
  - destruct z; cbn; try discriminate.
    intros H. injection H as H.
    exact (DecimalPos.Unsigned.to_uint_nonnil _ H).
  - destruct z; cbn; try discriminate.
    intros H. injection H as H.
    exact (DecimalPos.Unsigned.to_uint_nonnil _ H).
Qed.

(** X8: below one million the rendering loses nothing: for every [int] z
    with -2^53 < z < 1000000, taking the commas out of [format_number z]
    and reading the digits as an integer gives z back. *)
Theorem plain_rendering_reads_back (z : Z) :
  -9007199254740992 < z < 1000000 ->
  exists s, format_number (Int z) = Ok s
         /\ strip_commas s = str z
         /\ parse_int (strip_commas s) = Some z.
Proof.
  intros Hz.
  assert (H : exists s, format_number (Int z) = Ok s /\ strip_commas s = str z).
  { destruct (Z.le_gt_cases 0 z) as [Hpos | Hneg].
    - exists (group_thousands (str z)).
      split; [apply format_number_small_int; lia |].
      now rewrite strip_commas_group, strip_commas_str.
    - destruct z as [| p | p]; try lia.
      exists ("-" ++ group_thousands (str (Z.pos p)))%string.
      split; [apply format_number_negative_int; lia |].
      transitivity (String "-"%char (strip_commas (group_thousands (str (Z.pos p))))).
      + reflexivity.
      + rewrite strip_commas_group, strip_commas_str. reflexivity. }
  destruct H as (s & Hs & Hstrip). exists s.
  split; [exact Hs |]. split; [exact Hstrip |].
  rewrite Hstrip. apply parse_int_str.
Qed.

Lemma plain_rendering_reads_back_witness :
  -9007199254740992 < 999999 < 1000000
  /\ exists s, format_number (Int 999999) = Ok s
            /\ parse_int (strip_commas s) = Some 999999.
Proof.
  split; [lia |].
  destruct (plain_rendering_reads_back 999999 ltac:(lia)) as (s & Hs & _ & Hp).
  exists s. split; assumption.
Defined.

(** ** More on the engine: suffix by square, negative indices, summaries off
    the board *)

Lemma shown_as_b_sound (suffix s : string) :
  shown_as_b suffix s = true -> shown_as suffix s.
Proof.
  unfold shown_as_b, shown_as. intros H. apply andb_prop in H.
  destruct H as [He Hn]. apply String.eqb_eq in He. eauto.
Qed.

Lemma suffix_checked : forallb suffix_check (Py.range 1 65) = true.
Proof. vm_compute. reflexivity. Qed.

(** X9: on the board, the suffix follows the square: the grains of square n
    are shown without a suffix up to square 20, with "M" on squares 21-30,
    "B" on 31-40, "T" on 41-50 and "Q" from 51 on; the running total through
    square n always carries the suffix of the grains of square n + 1, so it
    changes one square earlier. *)
Theorem suffix_by_square (n : Z) :
  1 <= n <= 64 ->
  exists v w g t,
    calculate_grains n = Ok v /\ format_number v = Ok g
    /\ calculate_total n = Ok w /\ format_number w = Ok t
    /\ shown_as (grains_suffix n) g
    /\ shown_as (grains_suffix (n + 1)) t.
Proof.
  intros Hn.
  pose proof (forallb_range _ _ _ suffix_checked n ltac:(lia)) as Hc.
  unfold suffix_check in Hc.
  rewrite calculate_grains_int, calculate_total_int in Hc by lia.
  cbn [bind] in Hc.
  destruct (format_number (Int (2 ^ (n - 1)))) as [g | ?] eqn:Eg;
    [| discriminate].
  destruct (format_number (Int (2 ^ n - 1))) as [t | ?] eqn:Et;
    [| discriminate].
  apply andb_prop in Hc. destruct Hc as [Hg Ht].
  exists (Int (2 ^ (n - 1))), (Int (2 ^ n - 1)), g, t.
  split; [apply calculate_grains_int; lia |]. split; [exact Eg |].
  split; [apply calculate_total_int; lia |]. split; [exact Et |].
  split; apply shown_as_b_sound; assumption.
Qed.

Lemma suffix_by_square_witness :
  1 <= 20 <= 64 /\
  exists v w g t,
    calculate_grains 20 = Ok v /\ format_number v = Ok g
    /\ calculate_total 20 = Ok w /\ format_number w = Ok t
    /\ shown_as (grains_suffix 20) g
    /\ shown_as (grains_suffix (20 + 1)) t.
Proof.
  split; [lia |].
  apply (suffix_by_square 20). lia.
Defined.

Lemma totals_exact_checked : forallb total_is_exact (Py.range (-53) 0) = true.
Proof. vm_compute. reflexivity. Qed.

Lemma totals_saturated_checked :
  forallb total_is_minus_one (Py.range (-1073) (-53)) = true.
Proof. vm_compute. reflexivity. Qed.

Lemma totals_in_unit_interval_checked :
  forallb total_in_unit_interval (Py.range (-1073) 0) = true.
Proof. vm_compute. reflexivity. Qed.

(** X10: for a negative index the "total" is a negative float: for every n
    from -1073 to -1, [calculate_total n] returns a float in [-1, 0); it is
    exactly [2^n - 1] down to n = -53, and from n = -54 on the subtraction
    rounds it to exactly [-1.0]. *)
Theorem negative_index_total (n : Z) :
  -1073 <= n <= -1 ->
  exists f q,
    calculate_total n = Ok (Float f)
    /\ float_value f = Some q
    /\ (-1 <= q)%Q /\ (q < 0)%Q
    /\ (-53 <= n -> (q == (2 # 1) ^ n - 1)%Q)
    /\ (n <= -54 -> f = minus_one).
Proof.
  intros Hn.
  pose proof (forallb_range _ _ _ totals_in_unit_interval_checked n ltac:(lia))
    as Hu.
  unfold total_in_unit_interval in Hu.
  destruct (calculate_total n) as [[z | f] | e] eqn:Ht; try discriminate.
  destruct (float_value f) as [q |] eqn:Hq; [| discriminate].
  apply andb_prop in Hu. destruct Hu as [Hlo Hhi].
  apply Qle_bool_iff in Hlo. apply negb_true_iff in Hhi.
  exists f, q. split; [reflexivity |]. split; [exact Hq |].
  split; [exact Hlo |]. split.
  - apply Qnot_le_lt. intros H0. apply Qle_bool_iff in H0. congruence.
  - split.
    + intros H53.
      pose proof (forallb_range _ _ _ totals_exact_checked n ltac:(lia)) as He.
      unfold total_is_exact in He. rewrite Ht, Hq in He.
      apply Qeq_bool_eq, He.
    + intros H54.
      pose proof (forallb_range _ _ _ totals_saturated_checked n ltac:(lia))
        as Hs.
      unfold total_is_minus_one in Hs. rewrite Ht in Hs.
      destruct f as [| | | [|] m e]; try discriminate.
      apply andb_prop in Hs. destruct Hs as [Hm He].
      apply Pos.eqb_eq in Hm. apply Z.eqb_eq in He. subst. reflexivity.
Qed.

Lemma negative_index_total_witness :
  -1073 <= -1 <= -1 /\
  exists f q, calculate_total (-1) = Ok (Float f)
           /\ float_value f = Some q /\ (q == (2 # 1) ^ (-1) - 1)%Q.
Proof.
  split; [lia |].
  destruct (negative_index_total (-1) ltac:(lia))
    as (f & q & Hf & Hq & _ & _ & He & _).
  exists f, q. split; [exact Hf |]. split; [exact Hq |]. apply He. lia.
Defined.

Lemma narrative_below_board_checked :
  forallb narrative_off_board (Py.range (-128) 1) = true.
Proof. vm_compute. reflexivity. Qed.

Lemma narrative_above_board_checked :
  forallb narrative_off_board (Py.range 65 193) = true.
Proof. vm_compute. reflexivity. Qed.

Lemma not_occurs (p s : string) : contains p s = false -> ~ occurs_in p s.
Proof. intros H Ho. apply contains_spec in Ho. congruence. Qed.

(** X11: off the board the summary is still produced: every index from
    -128 to 0 gets the first context paragraph ("still manageable"), every
    index from 65 to 192 the last one ("astronomically large"), and in
    neither case do the middle paragraphs or the closing block with the
    literal total appear: that block is tied to square 64 alone. *)
Theorem summary_off_board (cell : Type) (cell_zero : cell)
    (np_log10 : value -> cell) (n : Z) :
  -128 <= n <= 0 \/ 65 <= n <= 192 ->
  exists out,
    update_visualization cell_zero np_log10 n = Ok out
    /\ (occurs_in tier_manageable (vis_stats out) <-> n <= 0)
    /\ (occurs_in tier_astronomical (vis_stats out) <-> 65 <= n)
    /\ ~ occurs_in tier_significant (vis_stats out)
    /\ ~ occurs_in tier_weight (vis_stats out)
    /\ ~ occurs_in board_total_literal (vis_stats out)
    /\ ~ occurs_in complete_board_block (vis_stats out).
Proof.
  intros Hn.
  assert (Hc : narrative_off_board n = true).
  { destruct Hn as [Hn | Hn].
    - apply (forallb_range _ _ _ narrative_below_board_checked). lia.
    - apply (forallb_range _ _ _ narrative_above_board_checked). lia. }
  unfold narrative_off_board in Hc.
  destruct (update_visualization_stats n) as [s | e] eqn:Hs; [| discriminate].
  destruct (update_visualization_returns cell_zero np_log10 n s Hs)
    as (h & g & c & Hout).
  eexists. split; [exact Hout |]. cbn [vis_stats].
  repeat (apply andb_prop in Hc; destruct Hc as [Hc ?]).
  repeat match goal with
         | H : Bool.eqb _ _ = true |- _ => apply Bool.eqb_prop in H
         | H : negb _ = true |- _ => apply negb_true_iff in H
         end.
  split.
  { eapply occurs_iff; [eassumption |]. rewrite Z.leb_le. lia. }
  split.
  { eapply occurs_iff; [eassumption |]. rewrite Z.ltb_lt. lia. }
  repeat split; apply not_occurs; assumption.
Qed.

Lemma summary_off_board_witness :
  (-128 <= 65 <= 0 \/ 65 <= 65 <= 192) /\
  exists out,
    update_visualization 0%R log10R 65 = Ok out
    /\ ~ occurs_in board_total_literal (vis_stats out).
Proof.
  split; [right; lia |].
  destruct (summary_off_board R 0%R log10R 65 ltac:(right; lia))
    as (out & Ho & _ & _ & _ & _ & Hl & _).
  exists out. split; assumption.
Defined.

Lemma weight_checked : forallb weight_check (Py.range 21 31) = true.
Proof. vm_compute. reflexivity. Qed.

(** X12: on squares 21 to 30 the summary states the weight of the running
    total: the kilogram figure is the total divided by 50000 and the ton
    figure the total divided by fifty million, each rounded to the nearest
    integer on its own (the float arithmetic of the program loses nothing
    here); the ton figure is 0 exactly on squares 21 to 24. *)
Theorem weight_paragraph_figures (cell : Type) (cell_zero : cell)
    (np_log10 : value -> cell) (n : Z) :
  21 <= n <= 30 ->
  exists out,
    update_visualization cell_zero np_log10 n = Ok out
    /\ occurs_in (weight_paragraph (2 ^ n - 1)) (vis_stats out)
    /\ calculate_total n = Ok (Int (2 ^ n - 1))
    /\ (round_half_even_div (2 ^ n - 1) 50000000 = 0 <-> n <= 24).
Proof.
  intros Hn.
  pose proof (forallb_range _ _ _ weight_checked n ltac:(lia)) as Hc.
  unfold weight_check in Hc.
  destruct (update_visualization_stats n) as [s | e] eqn:Hs; [| discriminate].
  destruct (update_visualization_returns cell_zero np_log10 n s Hs)
    as (h & g & c & Hout).
  apply andb_prop in Hc. destruct Hc as [Hc He].
  apply Bool.eqb_prop in He.
  eexists. split; [exact Hout |]. cbn [vis_stats].
  split; [apply contains_spec, Hc |].
  split; [apply calculate_total_int; lia |].
  rewrite <- Z.eqb_eq, He. apply Z.leb_le.
Qed.

Lemma weight_paragraph_figures_witness :
  21 <= 25 <= 30 /\
  exists out,
    update_visualization 0%R log10R 25 = Ok out
    /\ occurs_in (weight_paragraph (2 ^ 25 - 1)) (vis_stats out).
Proof.
  split; [lia |].
  destruct (weight_paragraph_figures R 0%R log10R 25 ltac:(lia))
    as (out & Ho & Hw & _).
  exists out. split; assumption.
Defined.
